(** * PyFlare native platform layer: a shallow embedding of
    [src/engine/platform/native/native.c].

    The translation unit is glue over the windowing system, the OpenGL
    driver and the OS clock.  The program's own state is the global record
    [g_window] (plus the three X11 globals); everything the outside world
    hands back to the program (handles, status flags, queued events, clock
    readings, info logs) enters the model as an explicit argument of the
    function that asks for it.  What the program sends out is recorded:
    text printed with [printf] goes to [stdout], calls into the OS or into
    OpenGL whose result is not used go to [calls].

    [double] is IEEE binary64, modelled by the primitive floats; C integers
    are [Z], with the wrap-around of a narrowing cast written out where the
    source has one.

    Two limits of the model.  The window procedure is entered through the
    event pump only: a message the system sends to it while the pump runs
    is one more entry of the pump's queue, and the messages the system
    sends from inside [CreateWindowEx], [ShowWindow] or [DestroyWindow]
    are left out.  And an OS call is taken to return: the X11 pump reads
    [g_display] without testing it, so it is meaningful only once a
    display has been opened. *)

From Stdlib Require Import ZArith List String Ascii Bool Lia Floats DecimalString.
Import ListNotations.

Local Open Scope string_scope.
Local Open Scope list_scope.
Local Open Scope Z_scope.

(** ** The two builds

    [#ifdef _WIN32] selects the Win32 code; every other target takes the
    [#else] branch, which is the X11/GLX code. *)

Inductive Platform : Type := Win32 | X11.

(** ** C scalars *)

(** [(double)z] for an integer [z]: the nearest binary64, ties to even. *)
Definition double_of_Z (z : Z) : float :=
  SF2Prim (binary_normalize prec emax z 0 false).
Arguments double_of_Z : simpl never.

(** A C truth test: [if (x)] for an integer or a pointer. *)
Definition truthy (x : Z) : bool := negb (x =? 0).

(** [(long)z] where [long] has 32 bits (the Win32 ABI): reduction modulo
    2^32 into the signed range. *)
Definition to_long32 (z : Z) : Z := (z + 2 ^ 31) mod 2 ^ 32 - 2 ^ 31.

(** [LOWORD] and [HIWORD] of windows.h. *)
Definition LOWORD (l : Z) : Z := Z.land l 65535.
Definition HIWORD (l : Z) : Z := Z.land (Z.shiftr l 16) 65535.

(** [MAKELPARAM]: how the system packs a client size into [lParam]. *)
Definition MAKELPARAM (lo hi : Z) : Z :=
  Z.lor (Z.land lo 65535) (Z.shiftl (Z.land hi 65535) 16).

Definition nl : string := String (ascii_of_nat 10) EmptyString.

(** [%d] of printf. *)
Definition fmt_d (z : Z) : string := NilZero.string_of_int (Z.to_int z).
Arguments fmt_d : simpl never.

(** ** Data model *)

Record WindowConfig : Type := mkWindowConfig {
  cfg_width : Z;
  cfg_height : Z;
  cfg_title : string;
  cfg_fullscreen : bool;
  cfg_vsync : bool;
  cfg_gl_major : Z;
  cfg_gl_minor : Z
}.

Record WindowState : Type := mkWindowState {
  native_handle : Z;
  gl_context : Z;
  width : Z;
  height : Z;
  is_open : bool;
  last_time : float;
  delta_time : float
}.

(** [static WindowState g_window = {0};] *)
Definition WindowState_zero : WindowState :=
  mkWindowState 0 0 0 0 false 0%float 0%float.

(** An argument of a call that leaves the program. *)
Inductive Arg : Type :=
| AInt (z : Z)
| AFloat (x : float)
| AStr (s : string).

(** A call into the OS or OpenGL whose result the program does not use. *)
Record ExtCall : Type := Ext { ext_name : string; ext_args : list Arg }.

(** The process: the globals of the translation unit, and what it has
    emitted so far.  [g_display], [g_x_window] and [g_glx_context] exist
    in the X11 build only; the Win32 code never touches them. *)
Record Process : Type := mkProcess {
  g_window : WindowState;
  g_display : Z;
  g_x_window : Z;
  g_glx_context : Z;
  stdout : list string;
  calls : list ExtCall
}.

(** The process image at load time. *)
Definition Process_init : Process :=
  mkProcess WindowState_zero 0 0 0 [] [].

(** ** Field assignments *)

Definition set_native_handle (v : Z) (w : WindowState) : WindowState :=
  mkWindowState v (gl_context w) (width w) (height w) (is_open w)
                (last_time w) (delta_time w).
Definition set_gl_context (v : Z) (w : WindowState) : WindowState :=
  mkWindowState (native_handle w) v (width w) (height w) (is_open w)
                (last_time w) (delta_time w).
Definition set_width (v : Z) (w : WindowState) : WindowState :=
  mkWindowState (native_handle w) (gl_context w) v (height w) (is_open w)
                (last_time w) (delta_time w).
Definition set_height (v : Z) (w : WindowState) : WindowState :=
  mkWindowState (native_handle w) (gl_context w) (width w) v (is_open w)
                (last_time w) (delta_time w).
Definition set_is_open (v : bool) (w : WindowState) : WindowState :=
  mkWindowState (native_handle w) (gl_context w) (width w) (height w) v
                (last_time w) (delta_time w).
Definition set_last_time (v : float) (w : WindowState) : WindowState :=
  mkWindowState (native_handle w) (gl_context w) (width w) (height w)
                (is_open w) v (delta_time w).
Definition set_delta_time (v : float) (w : WindowState) : WindowState :=
  mkWindowState (native_handle w) (gl_context w) (width w) (height w)
                (is_open w) (last_time w) v.

(** ** The state monad of the translation unit *)

Definition M (A : Type) : Type := Process -> A * Process.

Definition ret {A : Type} (a : A) : M A := fun p => (a, p).

Definition bind {A B : Type} (m : M A) (k : A -> M B) : M B :=
  fun p => let (a, p') := m p in k a p'.

Declare Scope m_scope.
Delimit Scope m_scope with m.
Notation "x <- m ;; k" := (bind m (fun x => k))
  (at level 61, m at next level, right associativity) : m_scope.
Notation "m ;; k" := (bind m (fun _ => k))
  (at level 61, right associativity) : m_scope.
Local Open Scope m_scope.

(** Read the record, assign to the record. *)
Definition get_window : M WindowState := fun p => (g_window p, p).

Definition upd_window (f : WindowState -> WindowState) : M unit :=
  fun p => (tt, mkProcess (f (g_window p)) (g_display p) (g_x_window p)
                          (g_glx_context p) (stdout p) (calls p)).

Definition get_display : M Z := fun p => (g_display p, p).
Definition get_x_window : M Z := fun p => (g_x_window p, p).
Definition get_glx_context : M Z := fun p => (g_glx_context p, p).

Definition put_display (v : Z) : M unit :=
  fun p => (tt, mkProcess (g_window p) v (g_x_window p) (g_glx_context p)
                          (stdout p) (calls p)).
Definition put_x_window (v : Z) : M unit :=
  fun p => (tt, mkProcess (g_window p) (g_display p) v (g_glx_context p)
                          (stdout p) (calls p)).
Definition put_glx_context (v : Z) : M unit :=
  fun p => (tt, mkProcess (g_window p) (g_display p) (g_x_window p) v
                          (stdout p) (calls p)).

(** [printf]: the formatted text is appended to standard output. *)
Definition printf (s : string) : M unit :=
  fun p => (tt, mkProcess (g_window p) (g_display p) (g_x_window p)
                          (g_glx_context p) (stdout p ++ [s]) (calls p)).

(** An outgoing call with no result the program reads. *)
Definition extcall (name : string) (args : list Arg) : M unit :=
  fun p => (tt, mkProcess (g_window p) (g_display p) (g_x_window p)
                          (g_glx_context p) (stdout p)
                          (calls p ++ [Ext name args])).

Definition when (b : bool) (m : M unit) : M unit :=
  if b then m else ret tt.

(** Result and final state of a run. *)
Definition result {A : Type} (m : M A) (p : Process) : A := fst (m p).
Definition after {A : Type} (m : M A) (p : Process) : Process := snd (m p).

(** ** Windows implementation ([#ifdef _WIN32]) *)

Module Windows.

(** The window messages [WindowProc] tells apart; every other message
    code falls to the [default] of the switch. *)
Inductive Message : Type :=
| WM_CLOSE
| WM_SIZE
| WM_DESTROY
| WM_other (code : Z).

(** A [MSG] as [PeekMessage] fills it, together with the value
    [DefWindowProc] answers should the message reach it. *)
Record MSG : Type := mkMSG {
  hwnd : Z;
  message : Message;
  wParam : Z;
  lParam : Z;
  DefWindowProc_ret : Z
}.

(** What the system answers during [native_create_window]. *)
Record CreateAnswers : Type := mkCreateAnswers {
  RegisterClassEx_ret : Z;
  CreateWindowEx_ret : Z;
  GetDC_ret : Z;
  ChoosePixelFormat_ret : Z;
  wglCreateContext_ret : Z;
  GetTickCount_ret : Z
}.

Definition WindowProc (m : MSG) : M Z :=
  match message m with
  | WM_CLOSE =>
      upd_window (set_is_open false) ;;
      ret 0
  | WM_SIZE =>
      upd_window (set_width (LOWORD (lParam m))) ;;
      upd_window (set_height (HIWORD (lParam m))) ;;
      w <- get_window ;;
      extcall "glViewport" [AInt 0; AInt 0; AInt (width w); AInt (height w)] ;;
      ret 0
  | WM_DESTROY =>
      extcall "PostQuitMessage" [AInt 0] ;;
      ret 0
  | WM_other _ =>
      ret (DefWindowProc_ret m)
  end.

(** [DispatchMessage]: the system hands the message to the window
    procedure of its target window.  Every window of the process is of
    class PyFlareWindow, whose procedure is [WindowProc]; a message
    posted to the thread ([hwnd] null) reaches no window procedure. *)
Definition DispatchMessage (m : MSG) : M Z :=
  if truthy (hwnd m) then WindowProc m else ret 0.

Definition window_style (config : WindowConfig) : string :=
  if cfg_fullscreen config then "WS_POPUP" else "WS_OVERLAPPEDWINDOW".

(** [(double)GetTickCount() / 1000.0] *)
Definition tick_seconds (ticks : Z) : float :=
  (double_of_Z ticks / 1000)%float.

Definition native_create_window (os : CreateAnswers) (config : WindowConfig)
  : M Z :=
  if negb (truthy (RegisterClassEx_ret os)) then
    printf ("Failed to register window class" ++ nl) ;;
    ret 0
  else
    let style := window_style config in
    extcall "AdjustWindowRect"
            [AInt 0; AInt 0; AInt (cfg_width config); AInt (cfg_height config);
             AStr style] ;;
    let hwnd := CreateWindowEx_ret os in
    if negb (truthy hwnd) then
      printf ("Failed to create window" ++ nl) ;;
      ret 0
    else
      let hdc := GetDC_ret os in
      let pixel_format := ChoosePixelFormat_ret os in
      extcall "SetPixelFormat" [AInt hdc; AInt pixel_format] ;;
      let hglrc := wglCreateContext_ret os in
      extcall "wglMakeCurrent" [AInt hdc; AInt hglrc] ;;
      upd_window (set_native_handle hwnd) ;;
      upd_window (set_gl_context hglrc) ;;
      upd_window (set_width (cfg_width config)) ;;
      upd_window (set_height (cfg_height config)) ;;
      upd_window (set_is_open true) ;;
      upd_window (set_last_time (tick_seconds (GetTickCount_ret os))) ;;
      extcall "ShowWindow" [AInt hwnd; AStr "SW_SHOW"] ;;
      extcall "UpdateWindow" [AInt hwnd] ;;
      ret 1.

(** [hdc] is what [GetDC] answers. *)
Definition native_swap_buffers (hdc : Z) : M unit :=
  w <- get_window ;;
  extcall "SwapBuffers" [AInt hdc] ;;
  extcall "ReleaseDC" [AInt (native_handle w); AInt hdc].

(** [while (PeekMessage(&msg, NULL, 0, 0, PM_REMOVE))]: [queue] is the
    thread's message queue; each turn removes its head, and the loop
    ends when [PeekMessage] finds it empty.  The messages left in the
    queue are returned. *)
Fixpoint native_poll_events (queue : list MSG) : M (list MSG) :=
  match queue with
  | [] => ret []
  | msg :: rest =>
      extcall "TranslateMessage" [AInt (hwnd msg)] ;;
      DispatchMessage msg ;;
      native_poll_events rest
  end.

Definition native_destroy_window_os : M unit :=
  w <- get_window ;;
  when (truthy (gl_context w))
       (extcall "wglMakeCurrent" [AInt 0; AInt 0] ;;
        extcall "wglDeleteContext" [AInt (gl_context w)]) ;;
  when (truthy (native_handle w))
       (extcall "DestroyWindow" [AInt (native_handle w)]).

End Windows.

(** ** Linux/X11 implementation ([#else]) *)

Module Linux.

(** The events [native_poll_events] tells apart by [event.type]; the
    [xconfigure] member carries the size of a [ConfigureNotify]. *)
Inductive XEvent : Type :=
| ClientMessage
| ConfigureNotify (xconfigure_width xconfigure_height : Z)
| XOther (type : Z).

(** What Xlib and GLX answer during [native_create_window]. *)
Record CreateAnswers : Type := mkCreateAnswers {
  XOpenDisplay_ret : Z;
  glXChooseVisual_ret : Z;
  XCreateWindow_ret : Z;
  glXCreateContext_ret : Z
}.

(** [struct timespec] as [clock_gettime(CLOCK_MONOTONIC, &ts)] fills it. *)
Record timespec : Type := mkTimespec { tv_sec : Z; tv_nsec : Z }.

(** [ts.tv_sec + ts.tv_nsec / 1000000000.0] *)
Definition timespec_seconds (ts : timespec) : float :=
  (double_of_Z (tv_sec ts) + double_of_Z (tv_nsec ts) / 1000000000)%float.

(** [g_window.native_handle] receives the window id cast to a pointer:
    the same number. *)
Definition native_create_window (os : CreateAnswers) (config : WindowConfig)
  : M Z :=
  put_display (XOpenDisplay_ret os) ;;
  display <- get_display ;;
  if negb (truthy display) then
    printf ("Failed to open X display" ++ nl) ;;
    ret 0
  else
    let vi := glXChooseVisual_ret os in
    if negb (truthy vi) then
      printf ("Failed to choose visual" ++ nl) ;;
      ret 0
    else
      put_x_window (XCreateWindow_ret os) ;;
      x_window <- get_x_window ;;
      extcall "XMapWindow" [AInt display; AInt x_window] ;;
      extcall "XStoreName" [AInt display; AInt x_window;
                            AStr (cfg_title config)] ;;
      put_glx_context (glXCreateContext_ret os) ;;
      glx_context <- get_glx_context ;;
      extcall "glXMakeCurrent" [AInt display; AInt x_window;
                                AInt glx_context] ;;
      extcall "XFree" [AInt vi] ;;
      upd_window (set_native_handle x_window) ;;
      upd_window (set_gl_context glx_context) ;;
      upd_window (set_width (cfg_width config)) ;;
      upd_window (set_height (cfg_height config)) ;;
      upd_window (set_is_open true) ;;
      ret 1.

Definition native_swap_buffers : M unit :=
  display <- get_display ;;
  x_window <- get_x_window ;;
  extcall "glXSwapBuffers" [AInt display; AInt x_window].

Definition handle_event (event : XEvent) : M unit :=
  match event with
  | ClientMessage =>
      upd_window (set_is_open false)
  | ConfigureNotify w h =>
      upd_window (set_width w) ;;
      upd_window (set_height h) ;;
      g <- get_window ;;
      extcall "glViewport" [AInt 0; AInt 0; AInt (width g); AInt (height g)]
  | XOther _ =>
      ret tt
  end.

(** [while (XPending(g_display))]: [queue] is the display's event
    queue; [XNextEvent] removes its head, and the loop ends when
    [XPending] answers 0.  The events left in the queue are returned. *)
Fixpoint native_poll_events (queue : list XEvent) : M (list XEvent) :=
  match queue with
  | [] => ret []
  | event :: rest =>
      handle_event event ;;
      native_poll_events rest
  end.

Definition native_destroy_window_os : M unit :=
  glx_context <- get_glx_context ;;
  x_window <- get_x_window ;;
  display <- get_display ;;
  when (truthy glx_context)
       (extcall "glXMakeCurrent" [AInt display; AInt 0; AInt 0] ;;
        extcall "glXDestroyContext" [AInt display; AInt glx_context]) ;;
  when (truthy x_window)
       (extcall "XDestroyWindow" [AInt display; AInt x_window]) ;;
  when (truthy display)
       (extcall "XCloseDisplay" [AInt display]).

End Linux.

(** ** What the outside world answers, per build *)

Definition CreateAnswers (pf : Platform) : Type :=
  match pf with
  | Win32 => Windows.CreateAnswers
  | X11 => Linux.CreateAnswers
  end.

(** One entry of the OS queue the event pump reads. *)
Definition Event (pf : Platform) : Type :=
  match pf with
  | Win32 => Windows.MSG
  | X11 => Linux.XEvent
  end.

(** A reading of the clock [native_update] and [native_get_time] use:
    the [DWORD] of [GetTickCount], or the [timespec] of [clock_gettime]. *)
Definition Clock (pf : Platform) : Type :=
  match pf with
  | Win32 => Z
  | X11 => Linux.timespec
  end.

(** [native_swap_buffers] asks [GetDC] on Win32 and nothing on X11. *)
Definition PresentAnswers (pf : Platform) : Type :=
  match pf with
  | Win32 => Z
  | X11 => unit
  end.

(** [GetProcessMemoryInfo]: its [BOOL] and the [WorkingSetSize] member of
    the counters it fills. *)
Record MemoryInfo : Type := mkMemoryInfo {
  GetProcessMemoryInfo_ret : Z;
  WorkingSetSize : Z
}.

Definition MemoryAnswers (pf : Platform) : Type :=
  match pf with
  | Win32 => MemoryInfo
  | X11 => unit
  end.

(** [glGetString] for the three names [native_init_window] prints. *)
Record GLStrings : Type := mkGLStrings {
  GL_VERSION_str : string;
  GL_VENDOR_str : string;
  GL_RENDERER_str : string
}.

(** What OpenGL answers during [native_create_shader]: the object names,
    the statuses read by [glGetShaderiv] / [glGetProgramiv], and the info
    logs read into the 512-byte buffers. *)
Record ShaderAnswers : Type := mkShaderAnswers {
  glCreateShader_vertex : Z;
  vertex_COMPILE_STATUS : Z;
  vertex_info_log : string;
  glCreateShader_fragment : Z;
  fragment_COMPILE_STATUS : Z;
  fragment_info_log : string;
  glCreateProgram_ret : Z;
  program_LINK_STATUS : Z;
  program_info_log : string
}.

(** ** Dispatch on the build *)

Definition native_create_window (pf : Platform)
  : CreateAnswers pf -> WindowConfig -> M Z :=
  match pf with
  | Win32 => Windows.native_create_window
  | X11 => Linux.native_create_window
  end.

Definition native_swap_buffers (pf : Platform) : PresentAnswers pf -> M unit :=
  match pf with
  | Win32 => Windows.native_swap_buffers
  | X11 => fun _ => Linux.native_swap_buffers
  end.

Definition native_poll_events (pf : Platform)
  : list (Event pf) -> M (list (Event pf)) :=
  match pf with
  | Win32 => Windows.native_poll_events
  | X11 => Linux.native_poll_events
  end.

(** The [current_time] of [native_update] and the value of
    [native_get_time]. *)
Definition clock_seconds (pf : Platform) : Clock pf -> float :=
  match pf with
  | Win32 => Windows.tick_seconds
  | X11 => Linux.timespec_seconds
  end.

(** ** Platform-independent API *)

Definition native_init_window (pf : Platform) (os : CreateAnswers pf)
  (gl : GLStrings) (width height : Z) (title : string) (fullscreen vsync : Z)
  : M Z :=
  let config :=
    mkWindowConfig width height title (truthy fullscreen) (truthy vsync) 2 1 in
  created <- native_create_window pf os config ;;
  if negb (truthy created) then
    ret 0
  else
    extcall "glViewport" [AInt 0; AInt 0; AInt width; AInt height] ;;
    extcall "glClearColor"
            [AFloat 0x1.99999ap-3%float; AFloat 0x1.99999ap-3%float;
             AFloat 0.25%float; AFloat 1%float] ;;
    extcall "glEnable" [AStr "GL_BLEND"] ;;
    extcall "glBlendFunc" [AStr "GL_SRC_ALPHA"; AStr "GL_ONE_MINUS_SRC_ALPHA"] ;;
    extcall "glEnable" [AStr "GL_DEPTH_TEST"] ;;
    extcall "glDepthFunc" [AStr "GL_LEQUAL"] ;;
    printf ("PyFlare Native Window Created: " ++ fmt_d width ++ "x"
            ++ fmt_d height ++ nl) ;;
    printf ("OpenGL Version: " ++ GL_VERSION_str gl ++ nl) ;;
    printf ("OpenGL Vendor: " ++ GL_VENDOR_str gl ++ nl) ;;
    printf ("OpenGL Renderer: " ++ GL_RENDERER_str gl ++ nl) ;;
    ret 1.

Definition native_destroy_window (pf : Platform) : M unit :=
  match pf with
  | Win32 => Windows.native_destroy_window_os
  | X11 => Linux.native_destroy_window_os
  end ;;
  upd_window (set_is_open false) ;;
  printf ("PyFlare Native Window Destroyed" ++ nl).

Definition native_update (pf : Platform) (queue : list (Event pf))
  (clock : Clock pf) : M unit :=
  native_poll_events pf queue ;;
  let current_time := clock_seconds pf clock in
  w <- get_window ;;
  upd_window (set_delta_time (current_time - last_time w)%float) ;;
  upd_window (set_last_time current_time).

Definition native_present (pf : Platform) (os : PresentAnswers pf) : M unit :=
  native_swap_buffers pf os.

Definition native_is_window_open : M Z :=
  w <- get_window ;;
  ret (if is_open w then 1 else 0).

(** The pair is what is stored through [width] and [height]. *)
Definition native_get_window_size : M (Z * Z) :=
  w <- get_window ;;
  ret (width w, height w).

Definition native_get_delta_time : M float :=
  w <- get_window ;;
  ret (delta_time w).

(** ** OpenGL utility functions *)

Definition native_clear (r g b a : float) : M unit :=
  extcall "glClearColor" [AFloat r; AFloat g; AFloat b; AFloat a] ;;
  extcall "glClear" [AStr "GL_COLOR_BUFFER_BIT | GL_DEPTH_BUFFER_BIT"].

Definition native_create_shader (gl : ShaderAnswers)
  (vertex_src fragment_src : string) : M Z :=
  let vertex_shader := glCreateShader_vertex gl in
  extcall "glShaderSource" [AInt vertex_shader; AInt 1; AStr vertex_src] ;;
  extcall "glCompileShader" [AInt vertex_shader] ;;
  let success := vertex_COMPILE_STATUS gl in
  if negb (truthy success) then
    let info_log := vertex_info_log gl in
    printf ("Vertex shader compilation failed: " ++ info_log ++ nl) ;;
    ret 0
  else
    let fragment_shader := glCreateShader_fragment gl in
    extcall "glShaderSource" [AInt fragment_shader; AInt 1; AStr fragment_src] ;;
    extcall "glCompileShader" [AInt fragment_shader] ;;
    let success := fragment_COMPILE_STATUS gl in
    if negb (truthy success) then
      let info_log := fragment_info_log gl in
      printf ("Fragment shader compilation failed: " ++ info_log ++ nl) ;;
      ret 0
    else
      let program := glCreateProgram_ret gl in
      extcall "glAttachShader" [AInt program; AInt vertex_shader] ;;
      extcall "glAttachShader" [AInt program; AInt fragment_shader] ;;
      extcall "glLinkProgram" [AInt program] ;;
      let success := program_LINK_STATUS gl in
      if negb (truthy success) then
        let info_log := program_info_log gl in
        printf ("Shader program linking failed: " ++ info_log ++ nl) ;;
        ret 0
      else
        extcall "glDeleteShader" [AInt vertex_shader] ;;
        extcall "glDeleteShader" [AInt fragment_shader] ;;
        ret program.

Definition native_use_shader (shader_id : Z) : M unit :=
  extcall "glUseProgram" [AInt shader_id].

Definition native_delete_shader (shader_id : Z) : M unit :=
  extcall "glDeleteProgram" [AInt shader_id].

(** ** Memory and performance utilities *)

Definition native_get_memory_usage (pf : Platform) : MemoryAnswers pf -> M Z :=
  match pf with
  | Win32 => fun pmc =>
      if truthy (GetProcessMemoryInfo_ret pmc)
      then ret (to_long32 (WorkingSetSize pmc))
      else ret 0
  | X11 => fun _ => ret 0
  end.

Definition native_get_time (pf : Platform) (clock : Clock pf) : M float :=
  ret (clock_seconds pf clock).

(** ** Histories of API calls

    The C-callable surface, one constructor per function, each carrying
    its arguments and what the outside world answers while it runs. *)

Inductive Call (pf : Platform) : Type :=
| call_init_window (os : CreateAnswers pf) (gl : GLStrings)
    (width height : Z) (title : string) (fullscreen vsync : Z)
| call_destroy_window
| call_update (queue : list (Event pf)) (clock : Clock pf)
| call_present (os : PresentAnswers pf)
| call_is_window_open
| call_get_window_size
| call_get_delta_time
| call_clear (r g b a : float)
| call_create_shader (gl : ShaderAnswers) (vertex_src fragment_src : string)
| call_use_shader (shader_id : Z)
| call_delete_shader (shader_id : Z)
| call_get_memory_usage (os : MemoryAnswers pf)
| call_get_time (clock : Clock pf).

Arguments call_init_window {pf}.
Arguments call_destroy_window {pf}.
Arguments call_update {pf}.
Arguments call_present {pf}.
Arguments call_is_window_open {pf}.
Arguments call_get_window_size {pf}.
Arguments call_get_delta_time {pf}.
Arguments call_clear {pf}.
Arguments call_create_shader {pf}.
Arguments call_use_shader {pf}.
Arguments call_delete_shader {pf}.
Arguments call_get_memory_usage {pf}.
Arguments call_get_time {pf}.

(** What a call hands back to its caller. *)
Inductive Value : Type :=
| VVoid
| VInt (z : Z)
| VDouble (x : float)
| VSize (w h : Z).

Definition lift {A : Type} (f : A -> Value) (m : M A) : M Value :=
  a <- m ;; ret (f a).

Definition exec {pf : Platform} (c : Call pf) : M Value :=
  match c with
  | call_init_window os gl width height title fullscreen vsync =>
      lift VInt (native_init_window pf os gl width height title fullscreen vsync)
  | call_destroy_window => lift (fun _ => VVoid) (native_destroy_window pf)
  | call_update queue clock => lift (fun _ => VVoid) (native_update pf queue clock)
  | call_present os => lift (fun _ => VVoid) (native_present pf os)
  | call_is_window_open => lift VInt native_is_window_open
  | call_get_window_size => lift (fun wh => VSize (fst wh) (snd wh)) native_get_window_size
  | call_get_delta_time => lift VDouble native_get_delta_time
  | call_clear r g b a => lift (fun _ => VVoid) (native_clear r g b a)
  | call_create_shader gl vs fs => lift VInt (native_create_shader gl vs fs)
  | call_use_shader id => lift (fun _ => VVoid) (native_use_shader id)
  | call_delete_shader id => lift (fun _ => VVoid) (native_delete_shader id)
  | call_get_memory_usage os => lift VInt (native_get_memory_usage pf os)
  | call_get_time clock => lift VDouble (native_get_time pf clock)
  end.

(** The process after a history of calls, oldest first. *)
Fixpoint run {pf : Platform} (history : list (Call pf)) (p : Process) : Process :=
  match history with
  | [] => p
  | c :: rest => run rest (after (exec c) p)
  end.

(** The event pump's notion of a close event and of a resize event. *)
Definition is_close_event {pf : Platform} : Event pf -> bool :=
  match pf with
  | Win32 => fun m =>
      match Windows.message m with
      | Windows.WM_CLOSE => truthy (Windows.hwnd m)
      | _ => false
      end
  | X11 => fun e =>
      match e with
      | Linux.ClientMessage => true
      | _ => false
      end
  end.

(** The size a resize event carries ([None] for any other event). *)
Definition resize_of {pf : Platform} : Event pf -> option (Z * Z) :=
  match pf with
  | Win32 => fun m =>
      match Windows.message m with
      | Windows.WM_SIZE =>
          if truthy (Windows.hwnd m)
          then Some (LOWORD (Windows.lParam m), HIWORD (Windows.lParam m))
          else None
      | _ => None
      end
  | X11 => fun e =>
      match e with
      | Linux.ConfigureNotify w h => Some (w, h)
      | _ => None
      end
  end.

(** The window record after the pump has read one queue entry. *)
Definition pump_window {pf : Platform} (e : Event pf) (w : WindowState)
  : WindowState :=
  if is_close_event e then set_is_open false w
  else match resize_of e with
       | Some (wd, ht) => set_height ht (set_width wd w)
       | None => w
       end.

(** ** Who writes the timing fields

    [last_time] is assigned in two places: by every [native_update], and
    by the Win32 [native_create_window] on its success path.
    [delta_time] is assigned by [native_update] alone. *)

Definition is_update {pf : Platform} (c : Call pf) : bool :=
  match c with
  | call_update _ _ => true
  | _ => false
  end.

(** The clock value a window creation stores in [last_time], if any. *)
Definition creation_time (pf : Platform) : CreateAnswers pf -> option float :=
  match pf with
  | Win32 => fun os =>
      if truthy (Windows.RegisterClassEx_ret os)
         && truthy (Windows.CreateWindowEx_ret os)
      then Some (Windows.tick_seconds (Windows.GetTickCount_ret os))
      else None
  | X11 => fun _ => None
  end.

(** The clock value a call stores in [last_time], if any. *)
Definition stores_time {pf : Platform} (c : Call pf) : option float :=
  match c with
  | call_update _ clock => Some (clock_seconds pf clock)
  | call_init_window os _ _ _ _ _ _ => creation_time pf os
  | _ => None
  end.

(** The clock value last stored by a history that starts with [t0] in
    [last_time]. *)
Definition stored_time {pf : Platform} (history : list (Call pf)) (t0 : float)
  : float :=
  fold_left (fun t c => match stores_time c with Some t' => t' | None => t end)
            history t0.

(** ** What a computation sends out

    The outgoing calls a computation adds to the log, and the classes of
    API calls told apart by what they may touch. *)

Definition emitted {A : Type} (m : M A) (p : Process) : list ExtCall :=
  skipn (List.length (calls p)) (calls (after m p)).


(** The calls that only hand back a value. *)
Definition is_query {pf : Platform} (c : Call pf) : bool :=
  match c with
  | call_is_window_open | call_get_window_size | call_get_delta_time
  | call_get_memory_usage _ | call_get_time _ => true
  | _ => false
  end.

(** The calls whose body holds a [printf]. *)
Definition may_print {pf : Platform} (c : Call pf) : bool :=
  match c with
  | call_init_window _ _ _ _ _ _ _ | call_destroy_window
  | call_create_shader _ _ _ => true
  | _ => false
  end.

Definition is_init {pf : Platform} (c : Call pf) : bool :=
  match c with
  | call_init_window _ _ _ _ _ _ _ => true
  | _ => false
  end.

(** The calls whose body assigns to [g_window]. *)
Definition may_assign {pf : Platform} (c : Call pf) : bool :=
  match c with
  | call_init_window _ _ _ _ _ _ _ | call_destroy_window
  | call_update _ _ => true
  | _ => false
  end.

(** The outgoing calls of one turn of the pump. *)
Definition pump_calls {pf : Platform} : Event pf -> list ExtCall :=
  match pf with
  | Win32 => fun m =>
      Ext "TranslateMessage" [AInt (Windows.hwnd m)] ::
      (if truthy (Windows.hwnd m) then
         match Windows.message m with
         | Windows.WM_SIZE =>
             [Ext "glViewport"
                  [AInt 0; AInt 0; AInt (LOWORD (Windows.lParam m));
                   AInt (HIWORD (Windows.lParam m))]]
         | Windows.WM_DESTROY => [Ext "PostQuitMessage" [AInt 0]]
         | _ => []
         end
       else [])
  | X11 => fun e =>
      match e with
      | Linux.ConfigureNotify w h =>
          [Ext "glViewport" [AInt 0; AInt 0; AInt w; AInt h]]
      | _ => []
      end
  end.

(** The handle and the context a successful creation stores. *)
Definition created_handle (pf : Platform) : CreateAnswers pf -> Z :=
  match pf with
  | Win32 => Windows.CreateWindowEx_ret
  | X11 => Linux.XCreateWindow_ret
  end.

Definition created_context (pf : Platform) : CreateAnswers pf -> Z :=
  match pf with
  | Win32 => Windows.wglCreateContext_ret
  | X11 => Linux.glXCreateContext_ret
  end.

Definition is_resize_event {pf : Platform} (e : Event pf) : bool :=
  match resize_of e with
  | Some _ => true
  | None => false
  end.

(** The answers under which [native_create_window] reaches its end. *)
Definition creation_succeeds (pf : Platform) : CreateAnswers pf -> bool :=
  match pf with
  | Win32 => fun os =>
      truthy (Windows.RegisterClassEx_ret os)
      && truthy (Windows.CreateWindowEx_ret os)
  | X11 => fun os =>
      truthy (Linux.XOpenDisplay_ret os)
      && truthy (Linux.glXChooseVisual_ret os)
  end.

(** The calls that set the open flag, and those that clear it. *)
Definition opens {pf : Platform} (c : Call pf) : bool :=
  match c with
  | call_init_window os _ _ _ _ _ _ => creation_succeeds pf os
  | _ => false
  end.

Definition closes {pf : Platform} (c : Call pf) : bool :=
  match c with
  | call_destroy_window => true
  | call_update queue _ => existsb is_close_event queue
  | _ => false
  end.

(** The OpenGL state [native_init_window] sets up for a window of [w] by
    [h]. *)
Definition gl_setup_calls (w h : Z) : list ExtCall :=
  [Ext "glViewport" [AInt 0; AInt 0; AInt w; AInt h];
   Ext "glClearColor"
       [AFloat 0x1.99999ap-3%float; AFloat 0x1.99999ap-3%float;
        AFloat 0.25%float; AFloat 1%float];
   Ext "glEnable" [AStr "GL_BLEND"];
   Ext "glBlendFunc" [AStr "GL_SRC_ALPHA"; AStr "GL_ONE_MINUS_SRC_ALPHA"];
   Ext "glEnable" [AStr "GL_DEPTH_TEST"];
   Ext "glDepthFunc" [AStr "GL_LEQUAL"]].

(** The names of the calls that release a window, a context or a
    display. *)
Definition is_release_call (c : ExtCall) : bool :=
  existsb (String.eqb (ext_name c))
    ["wglDeleteContext"; "DestroyWindow"; "glXDestroyContext";
     "XDestroyWindow"; "XCloseDisplay"].

(** A width and a height that fit the two 16-bit halves of [lParam]. *)
Definition word_sized (w : WindowState) : Prop :=
  0 <= width w < 65536 /\ 0 <= height w < 65536.

(** The release calls [native_destroy_window] issues in state [p]. *)
Definition release_calls (pf : Platform) (p : Process) : list ExtCall :=
  emitted (native_destroy_window pf) p.

(** A binary64 value that is zero, positive or plus infinity. *)
Definition SFnonneg (x : spec_float) : Prop :=
  SFleb (S754_zero false) x = true.

(** * Properties *)

(** ** Running the monad *)

(** Evaluation is by value and unfolds the monad only, so that a state
    is a record of small fields before the next step reads it. *)
Ltac run_m :=
  cbv beta iota zeta delta
    [result after lift when bind ret get_window upd_window
     get_display get_x_window get_glx_context put_display put_x_window
     put_glx_context printf extcall negb
     fst snd g_window g_display g_x_window g_glx_context stdout calls] in *.

(** The same for the assignments to the fields of the record. *)
Ltac run_fields :=
  cbv beta iota zeta delta
    [set_native_handle set_gl_context set_width set_height set_is_open
     set_last_time set_delta_time
     native_handle gl_context width height is_open last_time delta_time
     cfg_width cfg_height cfg_title cfg_fullscreen cfg_vsync
     cfg_gl_major cfg_gl_minor] in *.

Lemma after_bind {A B : Type} (m : M A) (k : A -> M B) (p : Process) :
  after (bind m k) p = after (k (result m p)) (after m p).
Proof. unfold after, result, bind. destruct (m p); reflexivity. Qed.

Lemma result_bind {A B : Type} (m : M A) (k : A -> M B) (p : Process) :
  result (bind m k) p = result (k (result m p)) (after m p).
Proof. unfold after, result, bind. destruct (m p); reflexivity. Qed.

Lemma truthy_false_iff (x : Z) : truthy x = false <-> x = 0.
Proof.
  unfold truthy. destruct (Z.eqb_spec x 0); cbn; split; congruence.
Qed.

Lemma truthy_true_iff (x : Z) : truthy x = true <-> x <> 0.
Proof.
  unfold truthy. destruct (Z.eqb_spec x 0); cbn; split; congruence.
Qed.

(** ** One turn of the event pump *)

Lemma Windows_DispatchMessage_window (m : Windows.MSG) (p : Process) :
  g_window (after (Windows.DispatchMessage m) p) =
  if truthy (Windows.hwnd m) then
    match Windows.message m with
    | Windows.WM_CLOSE => set_is_open false (g_window p)
    | Windows.WM_SIZE =>
        set_height (HIWORD (Windows.lParam m))
          (set_width (LOWORD (Windows.lParam m)) (g_window p))
    | _ => g_window p
    end
  else g_window p.
Proof.
  unfold Windows.DispatchMessage, Windows.WindowProc.
  destruct (truthy (Windows.hwnd m)); [|reflexivity].
  destruct (Windows.message m); reflexivity.
Qed.

Lemma Linux_handle_event_window (e : Linux.XEvent) (p : Process) :
  g_window (after (Linux.handle_event e) p) =
  match e with
  | Linux.ClientMessage => set_is_open false (g_window p)
  | Linux.ConfigureNotify w h => set_height h (set_width w (g_window p))
  | Linux.XOther _ => g_window p
  end.
Proof. destruct e; reflexivity. Qed.

Lemma Windows_poll_cons (m : Windows.MSG) (q : list Windows.MSG) (p : Process) :
  exists p', g_window p' = pump_window (pf := Win32) m (g_window p) /\
             Windows.native_poll_events (m :: q) p =
             Windows.native_poll_events q p'.
Proof.
  exists (after (Windows.DispatchMessage m)
                (after (extcall "TranslateMessage" [AInt (Windows.hwnd m)]) p)).
  split.
  - rewrite Windows_DispatchMessage_window.
    unfold pump_window, is_close_event, resize_of.
    destruct (Windows.message m), (truthy (Windows.hwnd m)); reflexivity.
  - cbn [Windows.native_poll_events]. unfold bind at 1 2, after.
    cbn [extcall]. unfold extcall at 1.
    destruct (Windows.DispatchMessage m _); reflexivity.
Qed.

Lemma Linux_poll_cons (e : Linux.XEvent) (q : list Linux.XEvent) (p : Process) :
  exists p', g_window p' = pump_window (pf := X11) e (g_window p) /\
             Linux.native_poll_events (e :: q) p =
             Linux.native_poll_events q p'.
Proof.
  exists (after (Linux.handle_event e) p). split.
  - rewrite Linux_handle_event_window. destruct e; reflexivity.
  - cbn [Linux.native_poll_events]. unfold bind at 1, after.
    destruct (Linux.handle_event e p); reflexivity.
Qed.

Lemma poll_cons (pf : Platform) (e : Event pf) (q : list (Event pf))
  (p : Process) :
  exists p', g_window p' = pump_window e (g_window p) /\
             native_poll_events pf (e :: q) p = native_poll_events pf q p'.
Proof.
  destruct pf; [apply Windows_poll_cons | apply Linux_poll_cons].
Qed.

Lemma poll_nil (pf : Platform) (p : Process) :
  native_poll_events pf [] p = ([], p).
Proof. destruct pf; reflexivity. Qed.

(** The pump leaves the queue empty, and its effect on the window record
    is that of reading the entries one after the other. *)
Lemma poll_events_fold (pf : Platform) (q : list (Event pf)) (p : Process) :
  result (native_poll_events pf q) p = [] /\
  g_window (after (native_poll_events pf q) p) =
  fold_left (fun w e => pump_window e w) q (g_window p).
Proof.
  revert p. induction q as [|e q IH]; intros p.
  - unfold result, after. rewrite poll_nil. split; reflexivity.
  - destruct (poll_cons pf e q p) as (p' & Hw & Heq).
    unfold result, after in *. rewrite Heq.
    cbn [fold_left]. rewrite <- Hw. apply IH.
Qed.

(** ** What a drained queue does to the window record *)

Lemma resize_not_close (pf : Platform) (e : Event pf) (wh : Z * Z) :
  resize_of e = Some wh -> is_close_event e = false.
Proof.
  destruct pf; cbn [Event] in e; cbn [resize_of is_close_event].
  - destruct (Windows.message e); congruence.
  - destruct e; congruence.
Qed.

Lemma pump_window_resize (pf : Platform) (e : Event pf) (wd ht : Z)
  (w : WindowState) :
  resize_of e = Some (wd, ht) ->
  pump_window e w = set_height ht (set_width wd w).
Proof.
  intros H. unfold pump_window.
  rewrite (resize_not_close pf e _ H), H. reflexivity.
Qed.

Lemma pump_window_timing (pf : Platform) (e : Event pf) (w : WindowState) :
  last_time (pump_window e w) = last_time w /\
  delta_time (pump_window e w) = delta_time w /\
  native_handle (pump_window e w) = native_handle w /\
  gl_context (pump_window e w) = gl_context w.
Proof.
  unfold pump_window. destruct (is_close_event e); [now cbn|].
  destruct (resize_of e) as [[wd ht]|]; now cbn.
Qed.

Lemma fold_pump_timing (pf : Platform) (q : list (Event pf)) (w : WindowState) :
  let w' := fold_left (fun w e => pump_window e w) q w in
  last_time w' = last_time w /\ delta_time w' = delta_time w /\
  native_handle w' = native_handle w /\ gl_context w' = gl_context w.
Proof.
  revert w. induction q as [|e q IH]; intros w; cbn [fold_left].
  - now cbn.
  - destruct (IH (pump_window e w)) as (H1 & H2 & H3 & H4).
    destruct (pump_window_timing pf e w) as (K1 & K2 & K3 & K4).
    cbv zeta. rewrite H1, H2, H3, H4. auto.
Qed.

Lemma fold_pump_is_open (pf : Platform) (q : list (Event pf)) (w : WindowState) :
  is_open (fold_left (fun w e => pump_window e w) q w) =
  is_open w && negb (existsb is_close_event q).
Proof.
  revert w. induction q as [|e q IH]; intros w; cbn [fold_left existsb].
  - now rewrite andb_true_r.
  - rewrite IH. unfold pump_window.
    destruct (is_close_event e); cbn.
    + now rewrite andb_false_r.
    + destruct (resize_of e) as [[wd ht]|]; reflexivity.
Qed.

Lemma fold_pump_size_kept (pf : Platform) (q : list (Event pf)) (w : WindowState) :
  Forall (fun e => resize_of e = None) q ->
  let w' := fold_left (fun w e => pump_window e w) q w in
  width w' = width w /\ height w' = height w.
Proof.
  intros H. revert w. induction H as [|e q He Hq IH]; intros w; cbn [fold_left].
  - now cbn.
  - cbv zeta. destruct (IH (pump_window e w)) as (H1 & H2).
    rewrite H1, H2. unfold pump_window. rewrite He.
    destruct (is_close_event e); now cbn.
Qed.

(** ** Packing and unpacking a client size (Win32) *)

Lemma land_65535 (a : Z) : Z.land a 65535 = a mod 2 ^ 16.
Proof. change 65535 with (Z.ones 16). apply Z.land_ones. lia. Qed.

Lemma MAKELPARAM_sum (lo hi : Z) :
  0 <= lo < 65536 -> 0 <= hi < 65536 ->
  MAKELPARAM lo hi = lo + hi * 2 ^ 16.
Proof.
  intros Hlo Hhi. unfold MAKELPARAM.
  rewrite !land_65535, !Z.mod_small by (change (2 ^ 16) with 65536; lia).
  rewrite Z.shiftl_mul_pow2 by lia.
  assert (Hdisj : Z.land lo (hi * 2 ^ 16) = 0).
  { apply Z.bits_inj'. intros n Hn.
    rewrite Z.land_spec, Z.bits_0.
    destruct (Z.lt_ge_cases n 16) as [Hlt|Hge].
    - rewrite Z.mul_pow2_bits_low by lia. apply andb_false_r.
    - replace lo with (lo mod 2 ^ 16)
      by (apply Z.mod_small; change (2 ^ 16) with 65536; lia).
    rewrite Z.mod_pow2_bits_high by lia. reflexivity. }
  rewrite <- (Z.lxor_lor _ _ Hdisj). symmetry.
  now apply Z.add_nocarry_lxor.
Qed.

Lemma LOWORD_MAKELPARAM (lo hi : Z) :
  0 <= lo < 65536 -> 0 <= hi < 65536 -> LOWORD (MAKELPARAM lo hi) = lo.
Proof.
  intros Hlo Hhi. unfold LOWORD.
  rewrite MAKELPARAM_sum, land_65535 by assumption.
  rewrite Z.mod_add by (change (2 ^ 16) with 65536; lia).
  apply Z.mod_small. change (2 ^ 16) with 65536; lia.
Qed.

Lemma HIWORD_MAKELPARAM (lo hi : Z) :
  0 <= lo < 65536 -> 0 <= hi < 65536 -> HIWORD (MAKELPARAM lo hi) = hi.
Proof.
  intros Hlo Hhi. unfold HIWORD.
  rewrite MAKELPARAM_sum, land_65535 by assumption.
  rewrite Z.shiftr_div_pow2 by lia.
  rewrite Z.div_add by (change (2 ^ 16) with 65536; lia).
  rewrite Z.div_small by (change (2 ^ 16) with 65536; lia).
  apply Z.mod_small. change (2 ^ 16) with 65536; lia.
Qed.

(** A [WM_SIZE] for a client area of [w] by [h] pixels, as the system
    sends it, is a resize event carrying [w] and [h]. *)
Lemma Windows_resize_of_WM_SIZE (hwnd wParam w h def : Z) :
  hwnd <> 0 -> 0 <= w < 65536 -> 0 <= h < 65536 ->
  resize_of (pf := Win32)
    (Windows.mkMSG hwnd Windows.WM_SIZE wParam (MAKELPARAM w h) def)
  = Some (w, h).
Proof.
  intros Hh Hw Hht. cbn [resize_of Windows.message Windows.hwnd Windows.lParam].
  apply truthy_true_iff in Hh. rewrite Hh.
  now rewrite LOWORD_MAKELPARAM, HIWORD_MAKELPARAM.
Qed.

(** ** Window creation, case by case *)

Lemma Windows_create_cases (os : Windows.CreateAnswers) (config : WindowConfig)
  (p : Process) :
  let r := result (Windows.native_create_window os config) p in
  let p' := after (Windows.native_create_window os config) p in
  (Windows.RegisterClassEx_ret os = 0 /\ r = 0 /\ g_window p' = g_window p /\
   stdout p' = stdout p ++ [("Failed to register window class" ++ nl)%string])
  \/
  (Windows.RegisterClassEx_ret os <> 0 /\ Windows.CreateWindowEx_ret os = 0 /\
   r = 0 /\ g_window p' = g_window p /\
   stdout p' = stdout p ++ [("Failed to create window" ++ nl)%string])
  \/
  (Windows.RegisterClassEx_ret os <> 0 /\ Windows.CreateWindowEx_ret os <> 0 /\
   r = 1 /\ stdout p' = stdout p /\
   g_window p' =
   mkWindowState (Windows.CreateWindowEx_ret os) (Windows.wglCreateContext_ret os)
     (cfg_width config) (cfg_height config) true
     (Windows.tick_seconds (Windows.GetTickCount_ret os))
     (delta_time (g_window p))).
Proof.
  cbv zeta. unfold Windows.native_create_window.
  destruct (truthy (Windows.RegisterClassEx_ret os)) eqn:Hreg.
  - destruct (truthy (Windows.CreateWindowEx_ret os)) eqn:Hwnd.
    + right; right. run_m. run_fields.
      apply truthy_true_iff in Hreg, Hwnd. auto.
    + right; left. run_m.
      apply truthy_true_iff in Hreg. apply truthy_false_iff in Hwnd. auto.
  - left. run_m. apply truthy_false_iff in Hreg. auto.
Qed.

Lemma Linux_create_cases (os : Linux.CreateAnswers) (config : WindowConfig)
  (p : Process) :
  let r := result (Linux.native_create_window os config) p in
  let p' := after (Linux.native_create_window os config) p in
  (Linux.XOpenDisplay_ret os = 0 /\ r = 0 /\ g_window p' = g_window p /\
   stdout p' = stdout p ++ [("Failed to open X display" ++ nl)%string])
  \/
  (Linux.XOpenDisplay_ret os <> 0 /\ Linux.glXChooseVisual_ret os = 0 /\
   r = 0 /\ g_window p' = g_window p /\
   stdout p' = stdout p ++ [("Failed to choose visual" ++ nl)%string])
  \/
  (Linux.XOpenDisplay_ret os <> 0 /\ Linux.glXChooseVisual_ret os <> 0 /\
   r = 1 /\ stdout p' = stdout p /\
   g_window p' =
   mkWindowState (Linux.XCreateWindow_ret os) (Linux.glXCreateContext_ret os)
     (cfg_width config) (cfg_height config) true
     (last_time (g_window p)) (delta_time (g_window p))).
Proof.
  cbv zeta. unfold Linux.native_create_window. run_m.
  destruct (truthy (Linux.XOpenDisplay_ret os)) eqn:Hd.
  - destruct (truthy (Linux.glXChooseVisual_ret os)) eqn:Hv.
    + right; right. run_m. run_fields.
      apply truthy_true_iff in Hd, Hv. auto.
    + right; left. run_m.
      apply truthy_true_iff in Hd. apply truthy_false_iff in Hv. auto.
  - left. run_m. apply truthy_false_iff in Hd. auto.
Qed.

(** Either build: the call answers 0 and leaves the record alone, or
    answers 1 and has opened the window. *)
Lemma create_window_outcome (pf : Platform) (os : CreateAnswers pf)
  (config : WindowConfig) (p : Process) :
  let r := result (native_create_window pf os config) p in
  let p' := after (native_create_window pf os config) p in
  (r = 0 /\ g_window p' = g_window p) \/
  (r = 1 /\ is_open (g_window p') = true /\ stdout p' = stdout p /\
   delta_time (g_window p') = delta_time (g_window p)).
Proof.
  destruct pf; cbn [native_create_window CreateAnswers] in *.
  - destruct (Windows_create_cases os config p)
      as [(_ & Hr & Hw & _)|[(_ & _ & Hr & Hw & _)|(_ & _ & Hr & Ho & Hw)]];
      cbv zeta; rewrite Hr, ?Hw; auto.
  - destruct (Linux_create_cases os config p)
      as [(_ & Hr & Hw & _)|[(_ & _ & Hr & Hw & _)|(_ & _ & Hr & Ho & Hw)]];
      cbv zeta; rewrite Hr, ?Hw; auto.
Qed.

(** ** [native_init_window] on top of [native_create_window] *)

Lemma init_window_failure (pf : Platform) (os : CreateAnswers pf)
  (gl : GLStrings) (width height : Z) (title : string) (fullscreen vsync : Z)
  (p : Process) :
  let config :=
    mkWindowConfig width height title (truthy fullscreen) (truthy vsync) 2 1 in
  let m := native_init_window pf os gl width height title fullscreen vsync in
  result (native_create_window pf os config) p = 0 ->
  result m p = 0 /\
  after m p = after (native_create_window pf os config) p.
Proof.
  cbv zeta. intros H. unfold native_init_window.
  rewrite result_bind, after_bind, H. split; reflexivity.
Qed.

Lemma init_window_success (pf : Platform) (os : CreateAnswers pf)
  (gl : GLStrings) (width height : Z) (title : string) (fullscreen vsync : Z)
  (p : Process) :
  let config :=
    mkWindowConfig width height title (truthy fullscreen) (truthy vsync) 2 1 in
  let p' := after (native_init_window pf os gl width height title
                                      fullscreen vsync) p in
  result (native_create_window pf os config) p <> 0 ->
  result (native_init_window pf os gl width height title fullscreen vsync) p = 1
  /\ g_window p' = g_window (after (native_create_window pf os config) p)
  /\ stdout p' =
     stdout (after (native_create_window pf os config) p) ++
     [("PyFlare Native Window Created: " ++ fmt_d width ++ "x"
       ++ fmt_d height ++ nl)%string;
      ("OpenGL Version: " ++ GL_VERSION_str gl ++ nl)%string;
      ("OpenGL Vendor: " ++ GL_VENDOR_str gl ++ nl)%string;
      ("OpenGL Renderer: " ++ GL_RENDERER_str gl ++ nl)%string].
Proof.
  cbv zeta. intros H. apply truthy_true_iff in H.
  unfold native_init_window. rewrite result_bind, !after_bind, H.
  destruct (after (native_create_window pf os _) p) as [w d xw gc out cs].
  run_m. rewrite <- !app_assoc. cbn [app]. auto.
Qed.

(** C6.  [native_init_window] answers 0 or 1 and nothing else: 0 exactly
    when [native_create_window] answers 0, having printed one message that
    names the failure and nothing more; 1 otherwise.  On Win32 the
    failures are those of window class registration and of window
    creation, on X11 those of opening the display and of visual
    selection. *)
Theorem native_init_window_returns :
  (forall (pf : Platform) (os : CreateAnswers pf) (gl : GLStrings)
          (width height : Z) (title : string) (fullscreen vsync : Z)
          (p : Process),
      let r := result (native_init_window pf os gl width height title
                                          fullscreen vsync) p in
      let created :=
        result (native_create_window pf os
                  (mkWindowConfig width height title (truthy fullscreen)
                                  (truthy vsync) 2 1)) p in
      (r = 0 \/ r = 1) /\ (r = 0 <-> created = 0))
  /\
  (forall (os : Windows.CreateAnswers) (gl : GLStrings)
          (width height : Z) (title : string) (fullscreen vsync : Z)
          (p : Process),
      let r := result (native_init_window Win32 os gl width height title
                                          fullscreen vsync) p in
      let out := stdout (after (native_init_window Win32 os gl width height
                                                  title fullscreen vsync) p) in
      (Windows.RegisterClassEx_ret os = 0 ->
       r = 0 /\
       out = stdout p ++ [("Failed to register window class" ++ nl)%string])
      /\
      (Windows.RegisterClassEx_ret os <> 0 ->
       Windows.CreateWindowEx_ret os = 0 ->
       r = 0 /\ out = stdout p ++ [("Failed to create window" ++ nl)%string])
      /\
      (Windows.RegisterClassEx_ret os <> 0 ->
       Windows.CreateWindowEx_ret os <> 0 -> r = 1))
  /\
  (forall (os : Linux.CreateAnswers) (gl : GLStrings)
          (width height : Z) (title : string) (fullscreen vsync : Z)
          (p : Process),
      let r := result (native_init_window X11 os gl width height title
                                          fullscreen vsync) p in
      let out := stdout (after (native_init_window X11 os gl width height
                                                  title fullscreen vsync) p) in
      (Linux.XOpenDisplay_ret os = 0 ->
       r = 0 /\ out = stdout p ++ [("Failed to open X display" ++ nl)%string])
      /\
      (Linux.XOpenDisplay_ret os <> 0 ->
       Linux.glXChooseVisual_ret os = 0 ->
       r = 0 /\ out = stdout p ++ [("Failed to choose visual" ++ nl)%string])
      /\
      (Linux.XOpenDisplay_ret os <> 0 ->
       Linux.glXChooseVisual_ret os <> 0 -> r = 1)).
Proof.
  split; [|split].
  - intros pf os gl width height title fullscreen vsync p. cbv zeta.
    destruct (create_window_outcome pf os
                (mkWindowConfig width height title (truthy fullscreen)
                                (truthy vsync) 2 1) p)
      as [(Hr & _)|(Hr & _)]; cbv zeta in Hr.
    + destruct (init_window_failure pf os gl width height title fullscreen
                                    vsync p Hr) as (H0 & _).
      rewrite H0, Hr. intuition.
    + assert (Hnz : result (native_create_window pf os
                (mkWindowConfig width height title (truthy fullscreen)
                                (truthy vsync) 2 1)) p <> 0)
        by (rewrite Hr; discriminate).
      destruct (init_window_success pf os gl width height title fullscreen
                                    vsync p Hnz) as (H1 & _).
      rewrite H1, Hr. split; [now right|]. split; discriminate.
  - intros os gl width height title fullscreen vsync p. cbv zeta.
    pose (config := mkWindowConfig width height title (truthy fullscreen)
                                   (truthy vsync) 2 1).
    destruct (Windows_create_cases os config p)
      as [(Hreg & Hr & _ & Ho)|[(Hreg & Hw & Hr & _ & Ho)
                               |(Hreg & Hw & Hr & _)]];
      cbv zeta in *.
    + destruct (init_window_failure Win32 os gl width height title
                                    fullscreen vsync p Hr) as (H0 & E).
      rewrite H0, E.
      repeat split; intros; try contradiction; auto.
    + destruct (init_window_failure Win32 os gl width height title
                                    fullscreen vsync p Hr) as (H0 & E).
      rewrite H0, E.
      repeat split; intros; try contradiction; auto.
    + assert (Hnz : result (native_create_window Win32 os config) p <> 0)
        by (cbn [native_create_window]; rewrite Hr; discriminate).
      destruct (init_window_success Win32 os gl width height title fullscreen
                                    vsync p Hnz) as (H1 & _).
      repeat split; intros; try contradiction; auto.
  - intros os gl width height title fullscreen vsync p. cbv zeta.
    pose (config := mkWindowConfig width height title (truthy fullscreen)
                                   (truthy vsync) 2 1).
    destruct (Linux_create_cases os config p)
      as [(Hd & Hr & _ & Ho)|[(Hd & Hv & Hr & _ & Ho)
                             |(Hd & Hv & Hr & _)]];
      cbv zeta in *.
    + destruct (init_window_failure X11 os gl width height title
                                    fullscreen vsync p Hr) as (H0 & E).
      rewrite H0, E.
      repeat split; intros; try contradiction; auto.
    + destruct (init_window_failure X11 os gl width height title
                                    fullscreen vsync p Hr) as (H0 & E).
      rewrite H0, E.
      repeat split; intros; try contradiction; auto.
    + assert (Hnz : result (native_create_window X11 os config) p <> 0)
        by (cbn [native_create_window]; rewrite Hr; discriminate).
      destruct (init_window_success X11 os gl width height title fullscreen
                                    vsync p Hnz) as (H1 & _).
      repeat split; intros; try contradiction; auto.
Qed.

Lemma native_init_window_returns_witness :
  let gl := mkGLStrings "2.1" "v" "r" in
  let no_class : CreateAnswers Win32 := Windows.mkCreateAnswers 0 0 0 0 0 0 in
  let no_visual : CreateAnswers X11 := Linux.mkCreateAnswers 1 0 0 0 in
  let fine : CreateAnswers X11 := Linux.mkCreateAnswers 1 1 2 3 in
  (result (native_init_window Win32 no_class gl 800 600 "PyFlare" 0 1)
          Process_init = 0 /\
   stdout (after (native_init_window Win32 no_class gl 800 600 "PyFlare" 0 1)
                 Process_init)
   = [] ++ [("Failed to register window class" ++ nl)%string]) /\
  (result (native_init_window X11 no_visual gl 800 600 "PyFlare" 0 1)
          Process_init = 0 /\
   stdout (after (native_init_window X11 no_visual gl 800 600 "PyFlare" 0 1)
                 Process_init)
   = [] ++ [("Failed to choose visual" ++ nl)%string]) /\
  result (native_init_window X11 fine gl 800 600 "PyFlare" 0 1) Process_init
  = 1.
Proof.
  cbv zeta. split; [|split].
  - apply (proj1 (proj1 (proj2 native_init_window_returns)
             (Windows.mkCreateAnswers 0 0 0 0 0 0) (mkGLStrings "2.1" "v" "r")
             800 600 "PyFlare" 0 1 Process_init)).
    reflexivity.
  - apply (proj1 (proj2 (proj2 (proj2 native_init_window_returns)
             (Linux.mkCreateAnswers 1 0 0 0) (mkGLStrings "2.1" "v" "r")
             800 600 "PyFlare" 0 1 Process_init))).
    + discriminate.
    + reflexivity.
  - apply (proj2 (proj2 (proj2 (proj2 native_init_window_returns)
             (Linux.mkCreateAnswers 1 1 2 3) (mkGLStrings "2.1" "v" "r")
             800 600 "PyFlare" 0 1 Process_init))); discriminate.
Defined.

(** ** Failure of window creation *)

(** C9.  When [native_create_window] answers 0 the record [g_window] is
    what it was before the call, so a flag that was false is still false;
    the same holds of [native_init_window], which then answers 0 too. *)
Theorem window_creation_failure_is_atomic
  (pf : Platform) (os : CreateAnswers pf) (p : Process) :
  (forall config : WindowConfig,
      result (native_create_window pf os config) p = 0 ->
      g_window (after (native_create_window pf os config) p) = g_window p)
  /\
  (forall (gl : GLStrings) (width height : Z) (title : string)
          (fullscreen vsync : Z),
      result (native_init_window pf os gl width height title
                                 fullscreen vsync) p = 0 ->
      g_window (after (native_init_window pf os gl width height title
                                          fullscreen vsync) p) = g_window p).
Proof.
  split.
  - intros config H.
    destruct (create_window_outcome pf os config p) as [(_ & Hw)|(Hr & _)];
      cbv zeta in *; [assumption|congruence].
  - intros gl width height title fullscreen vsync H.
    pose (config := mkWindowConfig width height title (truthy fullscreen)
                                   (truthy vsync) 2 1).
    destruct (create_window_outcome pf os config p) as [(Hr & Hw)|(Hr & _)];
      cbv zeta in *.
    + destruct (init_window_failure pf os gl width height title fullscreen
                                    vsync p Hr) as (_ & E).
      rewrite E. exact Hw.
    + assert (Hnz : result (native_create_window pf os config) p <> 0)
        by (rewrite Hr; discriminate).
      destruct (init_window_success pf os gl width height title fullscreen
                                    vsync p Hnz) as (H1 & _).
      congruence.
Qed.

Lemma window_creation_failure_is_atomic_witness :
  let os : CreateAnswers X11 := Linux.mkCreateAnswers 0 0 0 0 in
  result (native_init_window X11 os (mkGLStrings "" "" "") 800 600 "PyFlare"
                             0 1) Process_init = 0 /\
  g_window (after (native_init_window X11 os (mkGLStrings "" "" "") 800 600
                                      "PyFlare" 0 1) Process_init)
  = WindowState_zero.
Proof.
  cbv zeta. split; [reflexivity|].
  apply (proj2 (window_creation_failure_is_atomic
                  X11 (Linux.mkCreateAnswers 0 0 0 0) Process_init)).
  reflexivity.
Defined.

(** ** Window destruction *)

Lemma destroy_window_os_window (pf : Platform) (p : Process) :
  let m := match pf with
           | Win32 => Windows.native_destroy_window_os
           | X11 => Linux.native_destroy_window_os
           end in
  g_window (after m p) = g_window p.
Proof.
  cbv zeta. destruct p as [w d xw gc out cs]. destruct pf.
  - unfold Windows.native_destroy_window_os. run_m.
    destruct (truthy (gl_context w)); destruct (truthy (native_handle w));
      reflexivity.
  - unfold Linux.native_destroy_window_os. run_m.
    destruct (truthy gc); destruct (truthy xw); destruct (truthy d);
      reflexivity.
Qed.

Lemma destroy_window_window (pf : Platform) (p : Process) :
  g_window (after (native_destroy_window pf) p) =
  set_is_open false (g_window p).
Proof.
  unfold native_destroy_window. rewrite after_bind, after_bind.
  change (g_window (after (printf ("PyFlare Native Window Destroyed" ++ nl))
                          ?q)) with (g_window q).
  change (g_window (after (upd_window (set_is_open false)) ?q))
    with (set_is_open false (g_window q)).
  f_equal. apply (destroy_window_os_window pf p).
Qed.

(** C3, as the code has it.  [native_destroy_window] sets the open flag
    to false, so [native_is_window_open] answers 0 afterwards; the native
    handle, the GL context handle, the width, the height and the two
    timing fields keep the values they had before the call. *)
Theorem native_destroy_window_clears_open_flag (pf : Platform) (p : Process) :
  let w := g_window p in
  let w' := g_window (after (native_destroy_window pf) p) in
  is_open w' = false /\
  result native_is_window_open (after (native_destroy_window pf) p) = 0 /\
  native_handle w' = native_handle w /\
  gl_context w' = gl_context w /\
  width w' = width w /\
  height w' = height w /\
  last_time w' = last_time w /\
  delta_time w' = delta_time w.
Proof.
  cbv zeta. unfold result, native_is_window_open, bind, get_window, ret.
  cbn [fst]. rewrite destroy_window_window. cbn. repeat split.
Qed.

(** C3 as stated fails: a window created 800 by 600 on X11 and then
    destroyed leaves its handles and its size in the record. *)
Lemma native_destroy_window_keeps_fields :
  let os : CreateAnswers X11 := Linux.mkCreateAnswers 1 1 2 3 in
  let p := run [call_init_window os (mkGLStrings "2.1" "v" "r") 800 600
                                 "PyFlare" 0 1;
                call_destroy_window] Process_init in
  native_handle (g_window p) = 2 /\
  gl_context (g_window p) = 3 /\
  width (g_window p) = 800 /\
  height (g_window p) = 600 /\
  g_window p <> WindowState_zero.
Proof.
  cbv zeta. repeat split. intros H.
  apply (f_equal width) in H. discriminate H.
Qed.

(** ** The event pump *)

(** C4.  [native_poll_events] reads every entry of the queue, in order,
    and returns with the queue empty; when a close event is among the
    entries the open flag is false afterwards and [native_is_window_open]
    answers 0. *)
Theorem native_poll_events_drains_queue
  (pf : Platform) (queue : list (Event pf)) (p : Process) :
  let p' := after (native_poll_events pf queue) p in
  result (native_poll_events pf queue) p = [] /\
  g_window p' = fold_left (fun w e => pump_window e w) queue (g_window p) /\
  (existsb is_close_event queue = true ->
   is_open (g_window p') = false /\ result native_is_window_open p' = 0).
Proof.
  cbv zeta. destruct (poll_events_fold pf queue p) as (Hq & Hw).
  split; [exact Hq|]. split; [exact Hw|].
  intros Hclose.
  assert (Ho : is_open (g_window (after (native_poll_events pf queue) p))
               = false).
  { rewrite Hw, fold_pump_is_open, Hclose. apply andb_false_r. }
  split; [exact Ho|].
  unfold result, native_is_window_open, bind, get_window, ret. cbn [fst].
  now rewrite Ho.
Qed.

Lemma native_poll_events_drains_queue_witness :
  let gl := mkGLStrings "2.1" "v" "r" in
  let x11 := run [call_init_window (pf := X11) (Linux.mkCreateAnswers 1 1 2 3)
                    gl 800 600 "PyFlare" 0 1] Process_init in
  let x11_queue : list (Event X11) :=
    [Linux.XOther 12; Linux.ClientMessage; Linux.ConfigureNotify 640 480] in
  let win32 := run [call_init_window (pf := Win32)
                      (Windows.mkCreateAnswers 1 7 1 1 1 5000)
                      gl 800 600 "PyFlare" 0 1] Process_init in
  let win32_queue : list (Event Win32) :=
    [Windows.mkMSG 7 Windows.WM_CLOSE 0 0 0;
     Windows.mkMSG 7 (Windows.WM_other 15) 0 0 0] in
  (is_open (g_window x11) = true /\
   is_open (g_window (after (native_poll_events X11 x11_queue) x11)) = false /\
   result native_is_window_open (after (native_poll_events X11 x11_queue) x11)
   = 0) /\
  (is_open (g_window win32) = true /\
   is_open (g_window (after (native_poll_events Win32 win32_queue) win32))
   = false /\
   result native_is_window_open
          (after (native_poll_events Win32 win32_queue) win32) = 0).
Proof.
  cbv zeta. split; (split; [reflexivity|]).
  - apply (proj2 (proj2 (native_poll_events_drains_queue X11
      [Linux.XOther 12; Linux.ClientMessage; Linux.ConfigureNotify 640 480]
      (run [call_init_window (pf := X11) (Linux.mkCreateAnswers 1 1 2 3)
              (mkGLStrings "2.1" "v" "r") 800 600 "PyFlare" 0 1]
           Process_init)))).
    reflexivity.
  - apply (proj2 (proj2 (native_poll_events_drains_queue Win32
      [Windows.mkMSG 7 Windows.WM_CLOSE 0 0 0;
       Windows.mkMSG 7 (Windows.WM_other 15) 0 0 0]
      (run [call_init_window (pf := Win32)
              (Windows.mkCreateAnswers 1 7 1 1 1 5000)
              (mkGLStrings "2.1" "v" "r") 800 600 "PyFlare" 0 1]
           Process_init)))).
    reflexivity.
Defined.

(** C5.  Once the pump has read a resize event carrying [w] and [h], and
    no later resize event after it, [native_get_window_size] stores
    exactly [w] and [h]. *)
Theorem native_get_window_size_after_resize
  (pf : Platform) (earlier later : list (Event pf)) (e : Event pf)
  (w h : Z) (p : Process) :
  resize_of e = Some (w, h) ->
  Forall (fun e' => resize_of e' = None) later ->
  result native_get_window_size
         (after (native_poll_events pf (earlier ++ e :: later)) p) = (w, h).
Proof.
  intros He Hlater.
  unfold result, native_get_window_size, bind, get_window, ret. cbn [fst].
  destruct (poll_events_fold pf (earlier ++ e :: later) p) as (_ & Hw).
  rewrite Hw, fold_left_app. cbn [fold_left].
  destruct (fold_pump_size_kept pf later
              (pump_window e (fold_left (fun w e => pump_window e w) earlier
                                        (g_window p))) Hlater) as (H1 & H2).
  cbv zeta in H1, H2. rewrite H1, H2.
  rewrite (pump_window_resize pf e w h _ He). reflexivity.
Qed.

Lemma native_get_window_size_after_resize_witness :
  let x11 := run [call_init_window (pf := X11) (Linux.mkCreateAnswers 1 1 2 3)
                    (mkGLStrings "2.1" "v" "r") 800 600 "PyFlare" 0 1]
                 Process_init in
  let win32 := run [call_init_window (pf := Win32)
                      (Windows.mkCreateAnswers 1 7 1 1 1 5000)
                      (mkGLStrings "2.1" "v" "r") 800 600 "PyFlare" 0 1]
                   Process_init in
  result native_get_window_size x11 = (800, 600) /\
  result native_get_window_size
         (after (native_poll_events X11
                   ([Linux.ConfigureNotify 640 480] ++
                    Linux.ConfigureNotify 1024 768 :: [Linux.XOther 12]))
                x11) = (1024, 768) /\
  result native_get_window_size
         (after (native_poll_events Win32
                   ([] ++ Windows.mkMSG 7 Windows.WM_SIZE 0
                                        (MAKELPARAM 1024 768) 0 :: []))
                win32) = (1024, 768).
Proof.
  cbv zeta. split; [reflexivity|]. split.
  - apply (native_get_window_size_after_resize X11
             [Linux.ConfigureNotify 640 480] [Linux.XOther 12]
             (Linux.ConfigureNotify 1024 768) 1024 768).
    + reflexivity.
    + repeat constructor.
  - apply (native_get_window_size_after_resize Win32 [] []
             (Windows.mkMSG 7 Windows.WM_SIZE 0 (MAKELPARAM 1024 768) 0)
             1024 768).
    + apply Windows_resize_of_WM_SIZE; lia.
    + constructor.
Defined.

(** ** Shader creation *)

(** C1.  [native_create_shader] answers 0 when the vertex shader fails to
    compile, when the fragment shader fails to compile, or when the
    program fails to link, in each case after printing the info log read
    back from OpenGL; when all three statuses report success it prints
    nothing and answers the name of the program object, which is nonzero
    as soon as [glCreateProgram] produced a program object. *)
Theorem native_create_shader_returns
  (gl : ShaderAnswers) (vertex_src fragment_src : string) (p : Process) :
  let r := result (native_create_shader gl vertex_src fragment_src) p in
  let out := stdout (after (native_create_shader gl vertex_src fragment_src) p) in
  (vertex_COMPILE_STATUS gl = 0 ->
   r = 0 /\
   out = stdout p ++ [("Vertex shader compilation failed: "
                       ++ vertex_info_log gl ++ nl)%string])
  /\
  (vertex_COMPILE_STATUS gl <> 0 -> fragment_COMPILE_STATUS gl = 0 ->
   r = 0 /\
   out = stdout p ++ [("Fragment shader compilation failed: "
                       ++ fragment_info_log gl ++ nl)%string])
  /\
  (vertex_COMPILE_STATUS gl <> 0 -> fragment_COMPILE_STATUS gl <> 0 ->
   program_LINK_STATUS gl = 0 ->
   r = 0 /\
   out = stdout p ++ [("Shader program linking failed: "
                       ++ program_info_log gl ++ nl)%string])
  /\
  (vertex_COMPILE_STATUS gl <> 0 -> fragment_COMPILE_STATUS gl <> 0 ->
   program_LINK_STATUS gl <> 0 ->
   r = glCreateProgram_ret gl /\ out = stdout p /\
   (glCreateProgram_ret gl <> 0 -> r <> 0)).
Proof.
  cbv zeta. unfold native_create_shader. run_m.
  destruct (truthy (vertex_COMPILE_STATUS gl)) eqn:Hv; cbn [negb fst snd stdout].
  2:{ apply truthy_false_iff in Hv.
      repeat split; intros; try contradiction; reflexivity. }
  apply truthy_true_iff in Hv.
  destruct (truthy (fragment_COMPILE_STATUS gl)) eqn:Hf; cbn [negb fst snd stdout].
  2:{ apply truthy_false_iff in Hf.
      repeat split; intros; try contradiction; reflexivity. }
  apply truthy_true_iff in Hf.
  destruct (truthy (program_LINK_STATUS gl)) eqn:Hl; cbn [negb fst snd stdout].
  2:{ apply truthy_false_iff in Hl.
      repeat split; intros; try contradiction; reflexivity. }
  apply truthy_true_iff in Hl.
  repeat split; intros; try contradiction; auto.
Qed.

Lemma native_create_shader_returns_witness :
  let ok := mkShaderAnswers 1 1 "" 2 1 "" 3 1 "" in
  let bad := mkShaderAnswers 1 1 "" 2 0 "0:1: syntax error" 0 0 "" in
  result (native_create_shader ok "void main(){}" "void main(){}")
         Process_init = 3 /\
  result (native_create_shader bad "void main(){}" "void main(){") Process_init
  = 0 /\
  stdout (after (native_create_shader bad "void main(){}" "void main(){")
                Process_init)
  = [("Fragment shader compilation failed: 0:1: syntax error" ++ nl)%string].
Proof.
  cbv zeta. split.
  - apply (proj2 (proj2 (proj2 (native_create_shader_returns
      (mkShaderAnswers 1 1 "" 2 1 "" 3 1 "") "void main(){}" "void main(){}"
      Process_init)))); discriminate.
  - apply (proj1 (proj2 (native_create_shader_returns
      (mkShaderAnswers 1 1 "" 2 0 "0:1: syntax error" 0 0 "")
      "void main(){}" "void main(){" Process_init))).
    + discriminate.
    + reflexivity.
Defined.

(** ** Memory usage *)

Lemma to_long32_small (z : Z) : 0 <= z < 2 ^ 31 -> to_long32 z = z.
Proof.
  intros H. unfold to_long32.
  rewrite Z.mod_small by (change (2 ^ 32) with 4294967296 in *;
                          change (2 ^ 31) with 2147483648 in *; lia).
  lia.
Qed.

(** What [native_get_memory_usage] answers, branch by branch. *)
Lemma native_get_memory_usage_value (p : Process) :
  (forall os : MemoryAnswers X11,
      result (native_get_memory_usage X11 os) p = 0) /\
  (forall pmc : MemoryInfo,
      GetProcessMemoryInfo_ret pmc = 0 ->
      result (native_get_memory_usage Win32 pmc) p = 0) /\
  (forall pmc : MemoryInfo,
      GetProcessMemoryInfo_ret pmc <> 0 ->
      result (native_get_memory_usage Win32 pmc) p
      = to_long32 (WorkingSetSize pmc)) /\
  (forall pmc : MemoryInfo,
      GetProcessMemoryInfo_ret pmc <> 0 ->
      0 <= WorkingSetSize pmc < 2 ^ 31 ->
      result (native_get_memory_usage Win32 pmc) p = WorkingSetSize pmc).
Proof.
  repeat split.
  - intros pmc H. cbn. rewrite (proj2 (truthy_false_iff _) H). reflexivity.
  - intros pmc H. cbn. rewrite (proj2 (truthy_true_iff _) H). reflexivity.
  - intros pmc H Hr. cbn. rewrite (proj2 (truthy_true_iff _) H). cbn.
    now apply to_long32_small.
Qed.

(** C8, where the code departs from it.  On Win32, with the query
    successful and a working set of 2 GiB (2147483648 bytes), the cast to
    the 32-bit [long] makes [native_get_memory_usage] answer -2147483648,
    which is not the working-set size. *)
Theorem native_get_memory_usage_truncates :
  let pmc : MemoryAnswers Win32 := mkMemoryInfo 1 2147483648 in
  result (native_get_memory_usage Win32 pmc) Process_init = -2147483648 /\
  result (native_get_memory_usage Win32 pmc) Process_init <> WorkingSetSize pmc.
Proof. cbv zeta. split; [reflexivity|discriminate]. Qed.

(** ** The effect of each call on the window record *)

Lemma after_lift {A : Type} (f : A -> Value) (m : M A) (p : Process) :
  after (lift f m) p = after m p.
Proof. unfold lift, after, bind, ret. destruct (m p); reflexivity. Qed.

Lemma result_lift {A : Type} (f : A -> Value) (m : M A) (p : Process) :
  result (lift f m) p = f (result m p).
Proof. unfold lift, result, bind, ret. destruct (m p); reflexivity. Qed.

Lemma update_window (pf : Platform) (queue : list (Event pf)) (clock : Clock pf)
  (p : Process) :
  let w := fold_left (fun w e => pump_window e w) queue (g_window p) in
  g_window (after (native_update pf queue clock) p) =
  set_last_time (clock_seconds pf clock)
    (set_delta_time (clock_seconds pf clock - last_time (g_window p))%float w).
Proof.
  cbv zeta. unfold native_update. rewrite after_bind.
  destruct (poll_events_fold pf queue p) as (_ & Hw).
  destruct (fold_pump_timing pf queue (g_window p)) as (Hl & _).
  cbv zeta in Hl. rewrite <- Hl, <- Hw.
  generalize (after (native_poll_events pf queue) p). intros p'.
  reflexivity.
Qed.

Lemma init_window_window (pf : Platform) (os : CreateAnswers pf)
  (gl : GLStrings) (width height : Z) (title : string) (fullscreen vsync : Z)
  (p : Process) :
  let m := native_init_window pf os gl width height title fullscreen vsync in
  (result m p = 0 /\ g_window (after m p) = g_window p /\
   creation_time pf os = None)
  \/
  (result m p = 1 /\ is_open (g_window (after m p)) = true /\
   delta_time (g_window (after m p)) = delta_time (g_window p) /\
   last_time (g_window (after m p)) =
   match creation_time pf os with
   | Some t => t
   | None => last_time (g_window p)
   end).
Proof.
  cbv zeta.
  pose (config := mkWindowConfig width height title (truthy fullscreen)
                                 (truthy vsync) 2 1).
  assert (Hc : (result (native_create_window pf os config) p = 0 /\
                g_window (after (native_create_window pf os config) p)
                = g_window p /\ creation_time pf os = None) \/
               (result (native_create_window pf os config) p = 1 /\
                is_open (g_window (after (native_create_window pf os config) p))
                = true /\
                delta_time (g_window (after (native_create_window pf os config) p))
                = delta_time (g_window p) /\
                last_time (g_window (after (native_create_window pf os config) p))
                = match creation_time pf os with
                  | Some t => t
                  | None => last_time (g_window p)
                  end)).
  { destruct pf; cbn [native_create_window CreateAnswers creation_time] in *.
    - destruct (Windows_create_cases os config p)
        as [(Hreg & Hr & Hw & _)|[(Hreg & Hwnd & Hr & Hw & _)
                                 |(Hreg & Hwnd & Hr & _ & Hw)]];
        cbv zeta in *.
      + left. rewrite (proj2 (truthy_false_iff _) Hreg). auto.
      + left. rewrite (proj2 (truthy_false_iff _) Hwnd), andb_false_r. auto.
      + right. rewrite (proj2 (truthy_true_iff _) Hreg),
          (proj2 (truthy_true_iff _) Hwnd), Hw. cbn. auto.
    - destruct (Linux_create_cases os config p)
        as [(_ & Hr & Hw & _)|[(_ & _ & Hr & Hw & _)|(_ & _ & Hr & _ & Hw)]];
        cbv zeta in *.
      + left. auto.
      + left. auto.
      + right. rewrite Hw. cbn. auto. }
  destruct Hc as [(Hr & Hw & Ht)|(Hr & Ho & Hd & Hl)].
  - left.
    destruct (init_window_failure pf os gl width height title fullscreen
                                  vsync p Hr) as (H0 & E).
    rewrite H0, E. auto.
  - right.
    assert (Hnz : result (native_create_window pf os config) p <> 0)
      by (rewrite Hr; discriminate).
    destruct (init_window_success pf os gl width height title fullscreen
                                  vsync p Hnz) as (H1 & H2 & _).
    rewrite H1, H2. auto.
Qed.

(** Calls other than creation, destruction and update leave the record
    alone. *)
Lemma exec_window_other (pf : Platform) (c : Call pf) (p : Process) :
  match c with
  | call_init_window _ _ _ _ _ _ _ | call_destroy_window | call_update _ _ =>
      True
  | _ => g_window (after (exec c) p) = g_window p
  end.
Proof.
  destruct c; try exact I; cbn [exec]; rewrite after_lift; try reflexivity.
  - destruct pf; reflexivity.
  - unfold native_create_shader. run_m.
    destruct (truthy (vertex_COMPILE_STATUS gl)); [|reflexivity].
    destruct (truthy (fragment_COMPILE_STATUS gl)); [|reflexivity].
    destruct (truthy (program_LINK_STATUS gl)); reflexivity.
  - destruct pf; cbn [native_get_memory_usage MemoryAnswers] in *;
      [destruct (truthy (GetProcessMemoryInfo_ret os))|]; reflexivity.
Qed.

(** C7.  The open flag is false in the load-time image; a call that finds
    it false and leaves it true is a [native_init_window] that answers 1;
    a call that finds it true and leaves it false is
    [native_destroy_window] or a [native_update] whose queue holds a close
    event; [native_is_window_open] answers 1 when the flag is true and 0
    when it is false; and a [native_init_window] that answers 1 leaves the
    flag true. *)
Theorem open_flag_state_machine :
  is_open (g_window Process_init) = false
  /\
  (forall (pf : Platform) (c : Call pf) (p : Process),
      is_open (g_window p) = false ->
      is_open (g_window (after (exec c) p)) = true ->
      exists os gl width height title fullscreen vsync,
        c = call_init_window os gl width height title fullscreen vsync /\
        result (exec c) p = VInt 1)
  /\
  (forall (pf : Platform) (c : Call pf) (p : Process),
      is_open (g_window p) = true ->
      is_open (g_window (after (exec c) p)) = false ->
      c = call_destroy_window \/
      exists queue clock,
        c = call_update queue clock /\ existsb is_close_event queue = true)
  /\
  (forall p : Process,
      result native_is_window_open p = if is_open (g_window p) then 1 else 0)
  /\
  (forall (pf : Platform) (os : CreateAnswers pf) (gl : GLStrings)
          (width height : Z) (title : string) (fullscreen vsync : Z)
          (p : Process),
      result (native_init_window pf os gl width height title
                                 fullscreen vsync) p = 1 ->
      is_open (g_window (after (native_init_window pf os gl width height
                                                   title fullscreen vsync) p))
      = true).
Proof.
  split; [reflexivity|]. split; [|split; [|split]].
  - intros pf c p Hclosed Hopen.
    pose proof (exec_window_other pf c p) as Hother.
    destruct c as [os gl wd ht title fullscreen vsync| |queue clock| | | | | | | | | |];
      try (rewrite Hother in Hopen; congruence).
    + exists os, gl, wd, ht, title, fullscreen, vsync.
      split; [reflexivity|]. cbn [exec] in *.
      rewrite after_lift in Hopen. rewrite result_lift.
      destruct (init_window_window pf os gl wd ht title fullscreen
                                   vsync p) as [(Hr & Hw & _)|(Hr & _)];
        cbv zeta in *.
      * rewrite Hw in Hopen. congruence.
      * now rewrite Hr.
    + cbn [exec] in Hopen. rewrite after_lift, destroy_window_window in Hopen.
      discriminate Hopen.
    + cbn [exec] in Hopen.
      rewrite after_lift, update_window in Hopen. cbn in Hopen.
      rewrite fold_pump_is_open, Hclosed in Hopen. discriminate Hopen.
  - intros pf c p Hopen Hclosed.
    pose proof (exec_window_other pf c p) as Hother.
    destruct c as [os gl wd ht title fullscreen vsync| |queue clock| | | | | | | | | |];
      try (rewrite Hother in Hclosed; congruence).
    + cbn [exec] in Hclosed. rewrite after_lift in Hclosed.
      destruct (init_window_window pf os gl wd ht title fullscreen
                                   vsync p) as [(_ & Hw & _)|(_ & Ho & _)];
        cbv zeta in *; congruence.
    + now left.
    + right. exists queue, clock. split; [reflexivity|].
      cbn [exec] in Hclosed.
      rewrite after_lift, update_window in Hclosed. cbn in Hclosed.
      rewrite fold_pump_is_open, Hopen in Hclosed. cbn in Hclosed.
      destruct (existsb is_close_event queue); [reflexivity|discriminate].
  - intros p. reflexivity.
  - intros pf os gl wd ht title fullscreen vsync p Hr.
    destruct (init_window_window pf os gl wd ht title fullscreen vsync p)
      as [(Hr' & _)|(_ & Ho & _)]; cbv zeta in *; congruence.
Qed.

Lemma open_flag_state_machine_witness :
  let os : CreateAnswers X11 := Linux.mkCreateAnswers 1 1 2 3 in
  let init : Call X11 :=
    call_init_window os (mkGLStrings "2.1" "v" "r") 800 600 "PyFlare" 0 1 in
  let opened := after (exec init) Process_init in
  let close : Call X11 :=
    call_update (pf := X11) [Linux.ClientMessage] (Linux.mkTimespec 100 0) in
  result (exec init) Process_init = VInt 1 /\
  result native_is_window_open opened = 1 /\
  is_open (g_window (after (exec close) opened)) = false /\
  (close = call_destroy_window \/
   exists queue clock,
     close = call_update queue clock /\ existsb is_close_event queue = true).
Proof.
  cbv zeta. split; [reflexivity|]. split; [reflexivity|].
  split; [reflexivity|].
  apply (proj1 (proj2 (proj2 open_flag_state_machine)) X11
           (call_update (pf := X11) [Linux.ClientMessage]
                        (Linux.mkTimespec 100 0))
           (after (exec (call_init_window (pf := X11)
                           (Linux.mkCreateAnswers 1 1 2 3)
                           (mkGLStrings "2.1" "v" "r") 800 600 "PyFlare" 0 1))
                  Process_init));
    reflexivity.
Defined.

(** ** Binary64 subtraction

    The sign of a difference, from the specification of the primitive
    floats: subtracting a smaller finite value from a larger one never
    gives a negative result or a NaN. *)

Lemma digits2_pos_bounds (m : positive) :
  2 ^ (Zpos (digits2_pos m) - 1) <= Zpos m < 2 ^ Zpos (digits2_pos m).
Proof.
  induction m as [m IH|m IH|]; cbn [digits2_pos].
  - rewrite Pos2Z.inj_succ, (Pos2Z.inj_xI m).
    replace (Z.succ (Zpos (digits2_pos m)) - 1) with (Z.succ (Zpos (digits2_pos m) - 1)) by lia.
    rewrite !Z.pow_succ_r by lia.
    destruct IH as [IH1 IH2]. revert IH1 IH2.
    generalize (2 ^ (Zpos (digits2_pos m) - 1)) (2 ^ Zpos (digits2_pos m)). lia.
  - rewrite Pos2Z.inj_succ, (Pos2Z.inj_xO m).
    replace (Z.succ (Zpos (digits2_pos m)) - 1) with (Z.succ (Zpos (digits2_pos m) - 1)) by lia.
    rewrite !Z.pow_succ_r by lia.
    destruct IH as [IH1 IH2]. revert IH1 IH2.
    generalize (2 ^ (Zpos (digits2_pos m) - 1)) (2 ^ Zpos (digits2_pos m)). lia.
  - cbn. lia.
Qed.

Lemma iter_xO_pow (m d : positive) :
  Zpos (Pos.iter xO m d) = Zpos m * 2 ^ Zpos d.
Proof.
  induction d as [|d IH] using Pos.peano_ind.
  - cbn. lia.
  - rewrite Pos.iter_succ, Pos2Z.inj_succ, Z.pow_succ_r, Pos2Z.inj_xO, IH by lia. lia.
Qed.

Lemma shl_align_value (m : positive) (e e' : Z) :
  e' <= e -> Zpos (fst (shl_align m e e')) = Zpos m * 2 ^ (e - e').
Proof.
  intros H. unfold shl_align.
  destruct (e' - e) as [|d|d] eqn:E.
  - replace (e - e') with 0 by lia. cbn [fst]. lia.
  - lia.
  - cbn [fst]. rewrite iter_xO_pow. f_equal. f_equal. lia.
Qed.

Lemma shr_1_nonneg (mrs : shr_record) : 0 <= shr_m mrs -> 0 <= shr_m (shr_1 mrs).
Proof.
  destruct mrs as [m r s]. cbn [shr_m]. intros H.
  destruct m as [|[q|q|]|q]; cbn; lia.
Qed.

Lemma iter_shr_1_nonneg (n : positive) (mrs : shr_record) :
  0 <= shr_m mrs -> 0 <= shr_m (iter_pos shr_1 n mrs).
Proof.
  revert mrs. induction n as [n IH|n IH|]; intros mrs H; cbn [iter_pos].
  - apply IH, IH, shr_1_nonneg, H.
  - apply IH, IH, H.
  - apply shr_1_nonneg, H.
Qed.

Lemma shr_fexp_nonneg (m e : Z) (l : location) :
  0 <= m -> 0 <= shr_m (fst (shr_fexp prec emax m e l)).
Proof.
  intros H. unfold shr_fexp, shr.
  assert (H0 : 0 <= shr_m (shr_record_of_loc m l))
    by (destruct l as [|[]]; exact H).
  destruct (fexp prec emax (Zdigits2 m + e) - e); cbn [fst]; auto.
  now apply iter_shr_1_nonneg.
Qed.

Lemma round_nearest_even_nonneg (m : Z) (l : location) :
  0 <= m -> 0 <= round_nearest_even m l.
Proof.
  intros H. destruct l as [|[]]; cbn; try lia. destruct (Z.even m); lia.
Qed.

Lemma binary_round_aux_nonneg (m e : Z) (l : location) :
  0 <= m -> SFnonneg (binary_round_aux prec emax false m e l).
Proof.
  intros H. unfold binary_round_aux.
  pose proof (shr_fexp_nonneg m e l H) as H1.
  destruct (shr_fexp prec emax m e l) as [mrs' e']. cbn [fst] in H1.
  pose proof (shr_fexp_nonneg _ e' loc_Exact
                (round_nearest_even_nonneg _ (loc_of_shr_record mrs') H1)) as H2.
  destruct (shr_fexp prec emax _ e' loc_Exact) as [mrs'' e'']. cbn [fst] in H2.
  destruct (shr_m mrs'') as [|q|q]; [reflexivity| |lia].
  destruct (e'' <=? emax - prec); reflexivity.
Qed.

Lemma binary_normalize_nonneg (d e : Z) :
  0 <= d -> SFnonneg (binary_normalize prec emax d e false).
Proof.
  intros H. destruct d as [|q|q]; [reflexivity| |lia].
  cbn [binary_normalize]. unfold binary_round.
  destruct (shl_align q e _) as [mz ez].
  apply binary_round_aux_nonneg. lia.
Qed.

Lemma canonical_digits (m : positive) (e : Z) :
  canonical_mantissa prec emax m e = true ->
  Zpos m < 2 ^ prec /\ (emin < e -> 2 ^ (prec - 1) <= Zpos m).
Proof.
  unfold canonical_mantissa, fexp. intros H. apply Z.eqb_eq in H.
  pose proof (digits2_pos_bounds m) as [Hlo Hhi].
  split.
  - apply Z.lt_le_trans with (1 := Hhi). apply Z.pow_le_mono_r; lia.
  - intros He. replace (prec - 1) with (Zpos (digits2_pos m) - 1) by lia.
    exact Hlo.
Qed.

Lemma canonical_emin (m : positive) (e : Z) :
  canonical_mantissa prec emax m e = true -> emin <= e.
Proof. unfold canonical_mantissa, fexp. intros H. apply Z.eqb_eq in H. lia. Qed.

(* larger exponent dominates *)
Lemma aligned_lt (m1 m2 : positive) (e1 e2 : Z) :
  canonical_mantissa prec emax m1 e1 = true ->
  canonical_mantissa prec emax m2 e2 = true ->
  e1 < e2 -> Zpos m1 < Zpos m2 * 2 ^ (e2 - e1).
Proof.
  intros C1 C2 Hlt.
  destruct (canonical_digits m1 e1 C1) as [H1 _].
  destruct (canonical_digits m2 e2 C2) as [_ H2].
  pose proof (canonical_emin m1 e1 C1) as Hmin.
  specialize (H2 ltac:(lia)).
  assert (2 ^ 1 <= 2 ^ (e2 - e1)) by (apply Z.pow_le_mono_r; lia).
  change (2 ^ 1) with 2 in *.
  assert (2 ^ prec = 2 * 2 ^ (prec - 1)) by reflexivity.
  nia.
Qed.

Lemma SFsub_nonneg (x y : spec_float) :
  valid_binary x = true -> valid_binary y = true ->
  (forall s, x <> S754_infinity s) -> (forall s, y <> S754_infinity s) ->
  SFleb y x = true -> SFnonneg (SFsub prec emax x y).
Proof.
  intros Vx Vy Ix Iy Hle. unfold SFnonneg.
  destruct x as [sx|sx| |sx mx ex]; destruct y as [sy|sy| |sy my ey];
    try discriminate Hle;
    try (exfalso; apply (Ix sx); reflexivity);
    try (exfalso; apply (Iy sy); reflexivity).
  - destruct sx, sy; reflexivity.
  - destruct sy; [reflexivity|discriminate Hle].
  - destruct sx; [discriminate Hle|reflexivity].
  - cbn [SFsub]. apply binary_normalize_nonneg.
    cbn [valid_binary] in Vx, Vy. unfold bounded in Vx, Vy.
    apply andb_prop in Vx, Vy. destruct Vx as [Cx _], Vy as [Cy _].
    unfold SFleb, SFcompare in Hle.
    destruct sx, sy; cbn [cond_Zopp]; try discriminate Hle.
    + (* both negative: |y| >= |x| *)
      destruct (Z.compare_spec ey ex) as [E|E|E]; try discriminate Hle.
      * subst ey. rewrite Z.min_id, !shl_align_value, Z.sub_diag by lia.
        rewrite Pos.compare_cont_spec in Hle. cbn [Pos.switch_Eq] in Hle.
        destruct (Pos.compare_spec my mx); cbn in Hle; try discriminate Hle; lia.
      * rewrite Z.min_l, !shl_align_value, Z.sub_diag by lia.
        pose proof (aligned_lt mx my ex ey Cx Cy E). lia.
    + (* x >= 0 > y *)
      pose proof (Pos2Z.is_pos (fst (shl_align mx ex (Z.min ex ey)))).
      pose proof (Pos2Z.is_pos (fst (shl_align my ey (Z.min ex ey)))). lia.
    + destruct (Z.compare_spec ey ex) as [E|E|E]; try discriminate Hle.
      * subst ey. rewrite Z.min_id, !shl_align_value, Z.sub_diag by lia.
        rewrite Pos.compare_cont_spec in Hle. cbn [Pos.switch_Eq] in Hle.
        destruct (Pos.compare_spec my mx); cbn in Hle; try discriminate Hle; lia.
      * rewrite Z.min_r, !shl_align_value, Z.sub_diag by lia.
        pose proof (aligned_lt my mx ey ex Cy Cx E). lia.
Qed.

Lemma is_finite_not_infinity (x : float) (s : bool) :
  PrimFloat.is_finite x = true -> Prim2SF x <> S754_infinity s.
Proof.
  unfold PrimFloat.is_finite, is_infinity. intros H E.
  apply negb_true_iff, orb_false_elim in H. destruct H as [_ H].
  rewrite FloatAxioms.eqb_spec, abs_spec, E in H. cbn in H. discriminate H.
Qed.

Lemma sub_nonneg (a b : float) :
  (a <=? b)%float = true ->
  PrimFloat.is_finite a = true -> PrimFloat.is_finite b = true ->
  (0 <=? b - a)%float = true.
Proof.
  intros Hle Fa Fb. rewrite leb_spec in *. rewrite sub_spec.
  change (Prim2SF 0) with (S754_zero false).
  apply SFsub_nonneg; auto using Prim2SF_valid, is_finite_not_infinity.
Qed.

Lemma sub_zero_r (x : float) : (x - 0)%float = x.
Proof.
  apply Prim2SF_inj. rewrite sub_spec.
  change (Prim2SF 0) with (S754_zero false).
  destruct (Prim2SF x) as [[]| [] | |[] m e]; reflexivity.
Qed.

(** ** The timing fields along a history *)

Lemma exec_timing (pf : Platform) (c : Call pf) (p : Process) :
  last_time (g_window (after (exec c) p)) =
  match stores_time c with
  | Some t => t
  | None => last_time (g_window p)
  end
  /\
  delta_time (g_window (after (exec c) p)) =
  match c with
  | call_update _ clock =>
      (clock_seconds pf clock - last_time (g_window p))%float
  | _ => delta_time (g_window p)
  end.
Proof.
  pose proof (exec_window_other pf c p) as Hother.
  destruct c as [os gl wd ht title fullscreen vsync| |queue clock| | | | | | | | | |];
    try (rewrite Hother; split; reflexivity).
  - cbn [exec stores_time]. rewrite after_lift.
    destruct (init_window_window pf os gl wd ht title fullscreen
                                 vsync p) as [(_ & Hw & Ht)|(_ & _ & Hd & Hl)];
      cbv zeta in *.
    + rewrite Hw, Ht. split; reflexivity.
    + rewrite Hd, Hl. split; reflexivity.
  - cbn [exec stores_time]. rewrite after_lift, destroy_window_window.
    split; reflexivity.
  - cbn [exec stores_time]. rewrite after_lift, update_window.
    split; reflexivity.
Qed.

Lemma run_app (pf : Platform) (h1 h2 : list (Call pf)) (p : Process) :
  run (h1 ++ h2) p = run h2 (run h1 p).
Proof.
  revert p. induction h1 as [|c h1 IH]; intros p; [reflexivity|].
  cbn [app run]. apply IH.
Qed.

Lemma run_last_time (pf : Platform) (h : list (Call pf)) (p : Process) :
  last_time (g_window (run h p)) = stored_time h (last_time (g_window p)).
Proof.
  revert p. induction h as [|c h IH]; intros p; [reflexivity|].
  cbn [run]. rewrite IH. unfold stored_time. cbn [fold_left].
  now rewrite (proj1 (exec_timing pf c p)).
Qed.

Lemma run_delta_time_kept (pf : Platform) (h : list (Call pf)) (p : Process) :
  forallb (fun c => negb (is_update c)) h = true ->
  delta_time (g_window (run h p)) = delta_time (g_window p).
Proof.
  revert p. induction h as [|c h IH]; intros p H; [reflexivity|].
  cbn [forallb] in H. apply andb_prop in H. destruct H as [Hc Hh].
  cbn [run]. rewrite (IH _ Hh), (proj2 (exec_timing pf c p)).
  destruct c; try reflexivity. discriminate Hc.
Qed.

Lemma stored_time_none (pf : Platform) (h : list (Call pf)) (t0 : float) :
  Forall (fun c => stores_time c = None) h -> stored_time h t0 = t0.
Proof.
  intros H. induction H as [|c h Hc Hh IH]; [reflexivity|].
  unfold stored_time in *. cbn [fold_left]. now rewrite Hc.
Qed.

Lemma X11_stores_time_none (h : list (Call X11)) :
  forallb (fun c => negb (is_update c)) h = true ->
  Forall (fun c => stores_time c = None) h.
Proof.
  induction h as [|c h IH]; intros H; constructor.
  - cbn [forallb] in H. apply andb_prop in H. destruct H as [Hc _].
    destruct c; try reflexivity. discriminate Hc.
  - apply IH. cbn [forallb] in H. now apply andb_prop in H.
Qed.

Lemma get_delta_time_result (p : Process) :
  result native_get_delta_time p = delta_time (g_window p).
Proof. reflexivity. Qed.

(** The value [native_get_delta_time] answers after a history whose last
    [native_update] read [clock]: that clock value minus what the calls
    before it had last stored. *)
Lemma delta_time_after_update (pf : Platform) (h later : list (Call pf))
  (queue : list (Event pf)) (clock : Clock pf) (p : Process) :
  forallb (fun c => negb (is_update c)) later = true ->
  result native_get_delta_time (run (h ++ call_update queue clock :: later) p)
  = (clock_seconds pf clock - stored_time h (last_time (g_window p)))%float.
Proof.
  intros Hlater. rewrite get_delta_time_result, run_app. cbn [run].
  rewrite (run_delta_time_kept pf later _ Hlater).
  rewrite (proj2 (exec_timing pf (call_update queue clock) (run h p))).
  now rewrite run_last_time.
Qed.

(** C10.  The X11 [native_create_window] does not assign [last_time],
    whereas the Win32 one, when it succeeds, stores the tick count read at
    creation.  So on X11 [last_time] still holds its load-time zero after
    any history without a [native_update], window creation included, and
    the first [native_update] then sets [delta_time] to the
    CLOCK_MONOTONIC timestamp itself. *)
Theorem x11_first_update_delta_is_timestamp :
  (forall (os : Linux.CreateAnswers) (config : WindowConfig) (p : Process),
      last_time (g_window (after (Linux.native_create_window os config) p))
      = last_time (g_window p))
  /\
  (forall (os : Windows.CreateAnswers) (config : WindowConfig) (p : Process),
      result (Windows.native_create_window os config) p = 1 ->
      last_time (g_window (after (Windows.native_create_window os config) p))
      = Windows.tick_seconds (Windows.GetTickCount_ret os))
  /\
  (forall (h : list (Call X11)) (queue : list (Event X11)) (clock : Clock X11),
      forallb (fun c => negb (is_update c)) h = true ->
      last_time (g_window (run h Process_init)) = 0%float /\
      result native_get_delta_time
             (run (h ++ [call_update queue clock]) Process_init)
      = Linux.timespec_seconds clock).
Proof.
  split; [|split].
  - intros os config p.
    destruct (Linux_create_cases os config p)
      as [(_ & _ & Hw & _)|[(_ & _ & _ & Hw & _)|(_ & _ & _ & _ & Hw)]];
      cbv zeta in Hw; rewrite Hw; reflexivity.
  - intros os config p Hr.
    destruct (Windows_create_cases os config p)
      as [(_ & Hr' & _)|[(_ & _ & Hr' & _)|(_ & _ & _ & _ & Hw)]];
      cbv zeta in *; try congruence.
    rewrite Hw. reflexivity.
  - intros h queue clock Hh.
    pose proof (stored_time_none X11 h 0%float (X11_stores_time_none h Hh))
      as Hs.
    split.
    + rewrite run_last_time. exact Hs.
    + rewrite (delta_time_after_update X11 h [] queue clock Process_init
                                       eq_refl).
      cbn [Process_init g_window WindowState_zero last_time].
      rewrite Hs. cbn [clock_seconds]. apply sub_zero_r.
Qed.

Lemma x11_first_update_delta_is_timestamp_witness :
  let os : CreateAnswers X11 := Linux.mkCreateAnswers 1 1 2 3 in
  let h : list (Call X11) :=
    [call_init_window os (mkGLStrings "2.1" "v" "r") 800 600 "PyFlare" 0 1] in
  is_open (g_window (run h Process_init)) = true /\
  result native_get_delta_time
         (run (h ++ [call_update (pf := X11) [] (Linux.mkTimespec 86400 500000000)])
              Process_init)
  = 86400.5%float.
Proof.
  cbv zeta. split; [reflexivity|].
  change 86400.5%float
    with (Linux.timespec_seconds (Linux.mkTimespec 86400 500000000)).
  apply (proj2 (proj2 x11_first_update_delta_is_timestamp)
           [call_init_window (pf := X11) (Linux.mkCreateAnswers 1 1 2 3)
              (mkGLStrings "2.1" "v" "r") 800 600 "PyFlare" 0 1]
           [] (Linux.mkTimespec 86400 500000000)).
  reflexivity.
Defined.

(** ** Delta time *)

(** C2, as the code has it.  After a history with at least two
    [native_update] calls, [native_get_delta_time] answers the binary64
    difference [t2 - previous], where [t2] is the clock value read by the
    most recent [native_update] and [previous] is the clock value stored
    last before it: the one read by the [native_update] before, unless a
    call between the two stored its own, which only a successful Win32
    window creation does (never an X11 call).  The answer is non-negative
    whenever [previous] does not exceed [t2], both being finite. *)
Theorem delta_time_between_updates
  (pf : Platform) (h between later : list (Call pf))
  (queue1 queue2 : list (Event pf)) (clock1 clock2 : Clock pf) (p : Process) :
  forallb (fun c => negb (is_update c)) between = true ->
  forallb (fun c => negb (is_update c)) later = true ->
  let t1 := clock_seconds pf clock1 in
  let t2 := clock_seconds pf clock2 in
  let previous := stored_time between t1 in
  let d := result native_get_delta_time
             (run (h ++ call_update queue1 clock1 ::
                     between ++ call_update queue2 clock2 :: later) p) in
  d = (t2 - previous)%float /\
  (Forall (fun c => stores_time c = None) between -> d = (t2 - t1)%float) /\
  (pf = X11 -> d = (t2 - t1)%float) /\
  ((previous <=? t2)%float = true ->
   PrimFloat.is_finite previous = true -> PrimFloat.is_finite t2 = true ->
   (0 <=? d)%float = true).
Proof.
  intros Hbetween Hlater. cbv zeta.
  assert (Hd : result native_get_delta_time
                 (run (h ++ call_update queue1 clock1 ::
                         between ++ call_update queue2 clock2 :: later) p)
               = (clock_seconds pf clock2
                  - stored_time between (clock_seconds pf clock1))%float).
  { replace (h ++ call_update queue1 clock1 ::
               between ++ call_update queue2 clock2 :: later)
      with ((h ++ call_update queue1 clock1 :: between)
              ++ call_update queue2 clock2 :: later)
      by (rewrite <- app_assoc; reflexivity).
    rewrite (delta_time_after_update pf _ later queue2 clock2 p Hlater).
    f_equal. unfold stored_time. rewrite fold_left_app. reflexivity. }
  rewrite Hd. split; [reflexivity|]. split; [|split].
  - intros Hnone. now rewrite (stored_time_none pf between _ Hnone).
  - intros ->.
    now rewrite (stored_time_none X11 between _
                   (X11_stores_time_none between Hbetween)).
  - apply sub_nonneg.
Qed.

Lemma delta_time_between_updates_witness :
  let os : CreateAnswers X11 := Linux.mkCreateAnswers 1 1 2 3 in
  let h : list (Call X11) :=
    [call_init_window os (mkGLStrings "2.1" "v" "r") 800 600 "PyFlare" 0 1] in
  let d := result native_get_delta_time
             (run (h ++ call_update (pf := X11) [] (Linux.mkTimespec 100 0) ::
                     [call_present (pf := X11) tt] ++
                     call_update (pf := X11) [] (Linux.mkTimespec 100 250000000) ::
                     [call_get_delta_time (pf := X11)]) Process_init) in
  d = 0.25%float /\ (0 <=? d)%float = true.
Proof.
  cbv zeta.
  pose proof (delta_time_between_updates X11
    [call_init_window (pf := X11) (Linux.mkCreateAnswers 1 1 2 3)
       (mkGLStrings "2.1" "v" "r") 800 600 "PyFlare" 0 1]
    [call_present (pf := X11) tt] [call_get_delta_time (pf := X11)] [] []
    (Linux.mkTimespec 100 0) (Linux.mkTimespec 100 250000000) Process_init
    eq_refl eq_refl) as H.
  cbv zeta in H. destruct H as (H1 & _ & _ & H4).
  split.
  - rewrite H1. reflexivity.
  - apply H4; reflexivity.
Defined.

(** C2 as stated fails on Win32.  A window created between two updates
    restarts the count: with updates at ticks 1000 and 6000 and a
    creation at tick 5000 the answer is 1 second, not the 5 seconds that
    separate the updates.  And the tick count is a 32-bit counter of
    milliseconds: when it wraps from 4294967295 to 0 between two updates
    the answer is negative. *)
Lemma delta_time_not_elapsed_between_updates :
  let os : CreateAnswers Win32 := Windows.mkCreateAnswers 1 1 1 1 1 5000 in
  let gl := mkGLStrings "2.1" "v" "r" in
  let restarted : list (Call Win32) :=
    [call_update (pf := Win32) [] 1000;
     call_init_window os gl 800 600 "PyFlare" 0 1;
     call_update (pf := Win32) [] 6000] in
  let wrapped : list (Call Win32) :=
    [call_init_window os gl 800 600 "PyFlare" 0 1;
     call_update (pf := Win32) [] 4294967295;
     call_update (pf := Win32) [] 0] in
  result native_get_delta_time (run restarted Process_init) = 1%float /\
  (clock_seconds Win32 6000%Z - clock_seconds Win32 1000%Z)%float = 5%float /\
  (result native_get_delta_time (run wrapped Process_init) <? 0)%float = true.
Proof. cbv zeta. repeat split. Qed.

(** * Further properties of the code *)

(** ** What a computation adds to the logs *)

Lemma skipn_length_app {A : Type} (l k : list A) :
  skipn (List.length l) (l ++ k) = k.
Proof. induction l as [|a l IH]; [reflexivity|exact IH]. Qed.

Lemma emitted_app {A : Type} (m : M A) (p : Process) (k : list ExtCall) :
  calls (after m p) = calls p ++ k -> emitted m p = k.
Proof. intros H. unfold emitted. rewrite H. apply skipn_length_app. Qed.


(** Everything but the window record after one turn of the pump. *)
Lemma poll_cons_frame (pf : Platform) (e : Event pf) (q : list (Event pf))
  (p : Process) :
  exists p1,
    native_poll_events pf (e :: q) p = native_poll_events pf q p1 /\
    g_window p1 = pump_window e (g_window p) /\
    g_display p1 = g_display p /\
    g_x_window p1 = g_x_window p /\
    g_glx_context p1 = g_glx_context p /\
    stdout p1 = stdout p /\
    calls p1 = calls p ++ pump_calls e.
Proof.
  destruct pf; cbn [Event] in *.
  - exists (after (Windows.DispatchMessage e)
             (after (extcall "TranslateMessage" [AInt (Windows.hwnd e)]) p)).
    split.
    { cbn [native_poll_events Windows.native_poll_events].
      unfold bind at 1 2, after. unfold extcall at 1.
      destruct (Windows.DispatchMessage e _); reflexivity. }
    destruct p as [w d xw gc out cs].
    unfold pump_window, is_close_event, resize_of, pump_calls,
      Windows.DispatchMessage, Windows.WindowProc.
    destruct (Windows.message e), (truthy (Windows.hwnd e)); run_m;
      rewrite <- ?app_assoc; cbn [app]; rewrite ?app_nil_r; auto 10.
  - exists (after (Linux.handle_event e) p). split.
    { cbn [native_poll_events Linux.native_poll_events].
      unfold bind at 1, after.
      destruct (Linux.handle_event e p); reflexivity. }
    destruct p as [w d xw gc out cs].
    destruct e; run_m; rewrite ?app_nil_r; auto 10.
Qed.

(** The whole process after the pump has run. *)
Lemma poll_events_process (pf : Platform) (q : list (Event pf)) (p : Process) :
  let p' := after (native_poll_events pf q) p in
  g_window p' = fold_left (fun w e => pump_window e w) q (g_window p) /\
  g_display p' = g_display p /\
  g_x_window p' = g_x_window p /\
  g_glx_context p' = g_glx_context p /\
  stdout p' = stdout p /\
  calls p' = calls p ++ flat_map pump_calls q.
Proof.
  revert p. induction q as [|e q IH]; intros p; cbv zeta.
  - unfold after. rewrite poll_nil. cbn. rewrite app_nil_r. auto 10.
  - destruct (poll_cons_frame pf e q p)
      as (p1 & Heq & Hw & Hd & Hx & Hg & Ho & Hc).
    unfold after. rewrite Heq. fold (after (native_poll_events pf q) p1).
    destruct (IH p1) as (Iw & Id & Ix & Ig & Io & Ic).
    cbn [fold_left flat_map].
    rewrite Iw, Id, Ix, Ig, Io, Ic, Hw, Hd, Hx, Hg, Ho, Hc, app_assoc.
    auto 10.
Qed.

(** ** The event pump, beyond the open flag and the size *)

(** X1.  The event pump assigns nothing but the size and the open flag:
    it leaves the handles, the timing fields and the X11 globals alone
    and prints nothing.  It never opens a window: the flag afterwards is
    the flag before, cleared when the queue held a close event.  A queue
    with neither a close nor a resize event leaves the whole record as
    it was. *)
Theorem native_poll_events_frame
  (pf : Platform) (queue : list (Event pf)) (p : Process) :
  let p' := after (native_poll_events pf queue) p in
  native_handle (g_window p') = native_handle (g_window p) /\
  gl_context (g_window p') = gl_context (g_window p) /\
  last_time (g_window p') = last_time (g_window p) /\
  delta_time (g_window p') = delta_time (g_window p) /\
  g_display p' = g_display p /\
  g_x_window p' = g_x_window p /\
  g_glx_context p' = g_glx_context p /\
  stdout p' = stdout p /\
  is_open (g_window p') =
    is_open (g_window p) && negb (existsb is_close_event queue) /\
  (existsb is_close_event queue = false ->
   existsb is_resize_event queue = false ->
   g_window p' = g_window p).
Proof.
  cbv zeta.
  destruct (poll_events_process pf queue p) as (Hw & Hd & Hx & Hg & Ho & _).
  destruct (fold_pump_timing pf queue (g_window p)) as (Tl & Td & Th & Tc).
  cbv zeta in *. rewrite Hw, Th, Tc, Tl, Td, fold_pump_is_open.
  repeat (split; [assumption || reflexivity|]).
  clear. generalize (g_window p) as w.
  induction queue as [|e q IH]; intros w Hc Hr; [reflexivity|].
  cbn [existsb fold_left] in *.
  apply orb_false_elim in Hc, Hr. destruct Hc as [Hc1 Hc2], Hr as [Hr1 Hr2].
  rewrite (IH _ Hc2 Hr2). unfold pump_window, is_resize_event in *.
  rewrite Hc1. destruct (resize_of e); [discriminate Hr1|reflexivity].
Qed.

Lemma native_poll_events_frame_witness :
  let p := run [call_init_window (pf := Win32)
                  (Windows.mkCreateAnswers 1 7 1 1 1 5000)
                  (mkGLStrings "2.1" "v" "r") 800 600 "PyFlare" 0 1]
               Process_init in
  let idle : list (Event Win32) :=
    [Windows.mkMSG 7 (Windows.WM_other 15) 0 0 0;
     Windows.mkMSG 7 Windows.WM_DESTROY 0 0 0;
     Windows.mkMSG 0 Windows.WM_CLOSE 0 0 0] in
  g_window (after (native_poll_events Win32 idle) p) = g_window p.
Proof.
  cbv zeta.
  apply (proj2 (proj2 (proj2 (proj2 (proj2 (proj2 (proj2 (proj2 (proj2
    (native_poll_events_frame Win32
       [Windows.mkMSG 7 (Windows.WM_other 15) 0 0 0;
        Windows.mkMSG 7 Windows.WM_DESTROY 0 0 0;
        Windows.mkMSG 0 Windows.WM_CLOSE 0 0 0]
       (run [call_init_window (pf := Win32)
               (Windows.mkCreateAnswers 1 7 1 1 1 5000)
               (mkGLStrings "2.1" "v" "r") 800 600 "PyFlare" 0 1]
            Process_init)))))))))));
    reflexivity.
Defined.

(** X2.  What the pump sends out: one [glViewport(0, 0, w, h)] for each
    resize event it reads, with the size of that event and in the order
    of the queue; on Win32 also one [TranslateMessage] for each message
    and one [PostQuitMessage(0)] for each [WM_DESTROY] addressed to a
    window; and nothing else. *)
Theorem native_poll_events_emits
  (pf : Platform) (queue : list (Event pf)) (p : Process) :
  emitted (native_poll_events pf queue) p = flat_map pump_calls queue /\
  (pf = X11 ->
   emitted (native_poll_events pf queue) p =
   flat_map (fun e => match resize_of e with
                      | Some (w, h) =>
                          [Ext "glViewport" [AInt 0; AInt 0; AInt w; AInt h]]
                      | None => []
                      end) queue) /\
  filter (fun c => String.eqb (ext_name c) "glViewport")
         (emitted (native_poll_events pf queue) p) =
  flat_map (fun e => match resize_of e with
                     | Some (w, h) =>
                         [Ext "glViewport" [AInt 0; AInt 0; AInt w; AInt h]]
                     | None => []
                     end) queue.
Proof.
  assert (He : emitted (native_poll_events pf queue) p
               = flat_map pump_calls queue).
  { apply emitted_app. apply (poll_events_process pf queue p). }
  rewrite He. split; [reflexivity|]. split.
  - intros ->. clear. induction queue as [|e q IH]; [reflexivity|].
    cbn [flat_map]. rewrite IH. f_equal. destruct e; reflexivity.
  - clear. induction queue as [|e q IH]; [reflexivity|].
    cbn [flat_map]. rewrite filter_app, IH. f_equal.
    destruct pf; cbn [Event pump_calls resize_of] in *.
    + destruct (Windows.message e), (truthy (Windows.hwnd e)); reflexivity.
    + destruct e; reflexivity.
Qed.

(** ** The size received on Win32 *)

Lemma LOWORD_range (l : Z) : 0 <= LOWORD l < 65536.
Proof.
  unfold LOWORD. rewrite land_65535. change 65536 with (2 ^ 16).
  apply Z.mod_pos_bound. reflexivity.
Qed.

Lemma HIWORD_range (l : Z) : 0 <= HIWORD l < 65536.
Proof.
  unfold HIWORD. rewrite land_65535. change 65536 with (2 ^ 16).
  apply Z.mod_pos_bound. reflexivity.
Qed.

(** X3.  On Win32 the size comes out of the two 16-bit halves of
    [lParam]: whatever [lParam] a [WM_SIZE] carries, negative or wider
    than 32 bits, the stored width and height are between 0 and 65535
    once the pump has read it, and they stay so through every later
    message. *)
Theorem Windows_size_is_word_sized
  (queue : list (Event Win32)) (p : Process) :
  let w' := g_window (after (native_poll_events Win32 queue) p) in
  (word_sized (g_window p) -> word_sized w') /\
  (existsb is_resize_event queue = true -> word_sized w').
Proof.
  cbv zeta. destruct (poll_events_process Win32 queue p) as (Hw & _).
  cbv zeta in Hw. rewrite Hw. clear Hw. generalize (g_window p) as w.
  assert (Hstep : forall (e : Event Win32) (w : WindowState),
             (word_sized w -> word_sized (pump_window e w)) /\
             (is_resize_event e = true -> word_sized (pump_window e w))).
  { intros e w. unfold pump_window, is_resize_event.
    cbn [Event is_close_event resize_of] in *.
    destruct (Windows.message e), (truthy (Windows.hwnd e));
      cbn; unfold word_sized; cbn;
      (split; [tauto || (intros _; auto using LOWORD_range, HIWORD_range)
              |try discriminate; intros _;
               auto using LOWORD_range, HIWORD_range]). }
  induction queue as [|e q IH]; intros w; cbn [fold_left existsb].
  - split; [tauto|discriminate].
  - destruct (Hstep e w) as (S1 & S2).
    destruct (IH (pump_window e w)) as (I1 & I2).
    split; [tauto|]. intros H. apply orb_prop in H. tauto.
Qed.

Lemma Windows_size_is_word_sized_witness :
  let p := run [call_init_window (pf := Win32)
                  (Windows.mkCreateAnswers 1 7 1 1 1 5000)
                  (mkGLStrings "2.1" "v" "r") 100000 600 "PyFlare" 0 1]
               Process_init in
  let queue : list (Event Win32) :=
    [Windows.mkMSG 7 Windows.WM_SIZE 0 (-1) 0;
     Windows.mkMSG 7 Windows.WM_CLOSE 0 0 0] in
  width (g_window p) = 100000 /\
  result native_get_window_size (after (native_poll_events Win32 queue) p)
  = (65535, 65535) /\
  word_sized (g_window (after (native_poll_events Win32 queue) p)).
Proof.
  cbv zeta. split; [reflexivity|]. split; [reflexivity|].
  apply (proj2 (Windows_size_is_word_sized
    [Windows.mkMSG 7 Windows.WM_SIZE 0 (-1) 0;
     Windows.mkMSG 7 Windows.WM_CLOSE 0 0 0]
    (run [call_init_window (pf := Win32)
            (Windows.mkCreateAnswers 1 7 1 1 1 5000)
            (mkGLStrings "2.1" "v" "r") 100000 600 "PyFlare" 0 1]
         Process_init))).
  reflexivity.
Defined.

(** ** A successful [native_init_window] *)

Lemma create_window_success_state (pf : Platform) (os : CreateAnswers pf)
  (config : WindowConfig) (p : Process) :
  result (native_create_window pf os config) p <> 0 ->
  let w' := g_window (after (native_create_window pf os config) p) in
  native_handle w' = created_handle pf os /\
  gl_context w' = created_context pf os /\
  width w' = cfg_width config /\
  height w' = cfg_height config /\
  is_open w' = true /\
  delta_time w' = delta_time (g_window p) /\
  stdout (after (native_create_window pf os config) p) = stdout p.
Proof.
  intros Hr. cbv zeta.
  destruct pf; cbn [native_create_window CreateAnswers created_handle
                    created_context] in *.
  - destruct (Windows_create_cases os config p)
      as [(_ & Hr' & _)|[(_ & _ & Hr' & _)|(_ & _ & _ & Ho & Hw)]];
      cbv zeta in *; try contradiction.
    rewrite Hw, Ho. cbn. auto 10.
  - destruct (Linux_create_cases os config p)
      as [(_ & Hr' & _)|[(_ & _ & Hr' & _)|(_ & _ & _ & Ho & Hw)]];
      cbv zeta in *; try contradiction.
    rewrite Hw, Ho. cbn. auto 10.
Qed.



(** ** Arguments that are not read *)

Lemma Windows_create_window_reads (os : Windows.CreateAnswers)
  (c1 c2 : WindowConfig) :
  cfg_width c1 = cfg_width c2 -> cfg_height c1 = cfg_height c2 ->
  cfg_fullscreen c1 = cfg_fullscreen c2 ->
  Windows.native_create_window os c1 = Windows.native_create_window os c2.
Proof.
  intros Hw Hh Hf. unfold Windows.native_create_window, Windows.window_style.
  now rewrite Hw, Hh, Hf.
Qed.

Lemma Linux_create_window_reads (os : Linux.CreateAnswers)
  (c1 c2 : WindowConfig) :
  cfg_width c1 = cfg_width c2 -> cfg_height c1 = cfg_height c2 ->
  cfg_title c1 = cfg_title c2 ->
  Linux.native_create_window os c1 = Linux.native_create_window os c2.
Proof.
  intros Hw Hh Ht. unfold Linux.native_create_window.
  now rewrite Hw, Hh, Ht.
Qed.

(** X5.  The [vsync] argument of [native_init_window] is stored in the
    configuration and never read: two calls that differ in it alone
    answer the same value and leave the same process, on either build.
    On X11 the [fullscreen] argument is not read either. *)
Theorem native_init_window_ignores_vsync :
  (forall (pf : Platform) (os : CreateAnswers pf) (gl : GLStrings)
          (w h : Z) (title : string) (fullscreen vsync vsync' : Z)
          (p : Process),
      native_init_window pf os gl w h title fullscreen vsync p =
      native_init_window pf os gl w h title fullscreen vsync' p)
  /\
  (forall (os : CreateAnswers X11) (gl : GLStrings)
          (w h : Z) (title : string) (fullscreen fullscreen' vsync vsync' : Z)
          (p : Process),
      native_init_window X11 os gl w h title fullscreen vsync p =
      native_init_window X11 os gl w h title fullscreen' vsync' p).
Proof.
  split.
  - intros pf os gl w h title fullscreen vsync vsync' p.
    unfold native_init_window.
    replace (native_create_window pf os
               (mkWindowConfig w h title (truthy fullscreen) (truthy vsync) 2 1))
      with (native_create_window pf os
              (mkWindowConfig w h title (truthy fullscreen) (truthy vsync')
                              2 1)); [reflexivity|].
    destruct pf; cbn [native_create_window].
    + now apply Windows_create_window_reads.
    + now apply Linux_create_window_reads.
  - intros os gl w h title fullscreen fullscreen' vsync vsync' p.
    unfold native_init_window. cbn [native_create_window].
    now rewrite (Linux_create_window_reads os
                   (mkWindowConfig w h title (truthy fullscreen)
                                   (truthy vsync) 2 1)
                   (mkWindowConfig w h title (truthy fullscreen')
                                   (truthy vsync') 2 1)).
Qed.

(** ** What [native_destroy_window] releases *)

Lemma destroy_window_process (pf : Platform) (p : Process) :
  let p' := after (native_destroy_window pf) p in
  g_display p' = g_display p /\
  g_x_window p' = g_x_window p /\
  g_glx_context p' = g_glx_context p /\
  stdout p' = stdout p ++ [("PyFlare Native Window Destroyed" ++ nl)%string] /\
  calls p' = calls p ++
    match pf with
    | Win32 =>
        (if truthy (gl_context (g_window p))
         then [Ext "wglMakeCurrent" [AInt 0; AInt 0];
               Ext "wglDeleteContext" [AInt (gl_context (g_window p))]]
         else []) ++
        (if truthy (native_handle (g_window p))
         then [Ext "DestroyWindow" [AInt (native_handle (g_window p))]]
         else [])
    | X11 =>
        (if truthy (g_glx_context p)
         then [Ext "glXMakeCurrent" [AInt (g_display p); AInt 0; AInt 0];
               Ext "glXDestroyContext"
                   [AInt (g_display p); AInt (g_glx_context p)]]
         else []) ++
        (if truthy (g_x_window p)
         then [Ext "XDestroyWindow" [AInt (g_display p); AInt (g_x_window p)]]
         else []) ++
        (if truthy (g_display p)
         then [Ext "XCloseDisplay" [AInt (g_display p)]]
         else [])
    end.
Proof.
  cbv zeta. destruct p as [[nh ctx wd ht op lt dt] d xw gc out cs].
  destruct pf; unfold native_destroy_window, Windows.native_destroy_window_os,
    Linux.native_destroy_window_os.
  - run_m. run_fields.
    destruct (truthy ctx), (truthy nh); run_m; rewrite <- ?app_assoc;
      cbn [app]; rewrite ?app_nil_r; auto 10.
  - run_m.
    destruct (truthy gc), (truthy xw), (truthy d); run_m;
      rewrite <- ?app_assoc; cbn [app]; rewrite ?app_nil_r; auto 10.
Qed.

Lemma release_calls_close_display (p : Process) :
  g_display p <> 0 ->
  In (Ext "XCloseDisplay" [AInt (g_display p)]) (release_calls X11 p).
Proof.
  intros H. destruct (destroy_window_process X11 p) as (_ & _ & _ & _ & Hc).
  cbv zeta in Hc. unfold release_calls. rewrite (emitted_app _ _ _ Hc).
  apply truthy_true_iff in H. rewrite H.
  apply in_or_app. right. apply in_or_app. right. now left.
Qed.



(** ** The X11 globals *)

Lemma Linux_create_globals (os : Linux.CreateAnswers) (config : WindowConfig)
  (p : Process) :
  let p' := after (Linux.native_create_window os config) p in
  g_display p' = Linux.XOpenDisplay_ret os /\
  ((Linux.XOpenDisplay_ret os = 0 \/ Linux.glXChooseVisual_ret os = 0) ->
   g_x_window p' = g_x_window p /\ g_glx_context p' = g_glx_context p /\
   calls p' = calls p) /\
  (Linux.XOpenDisplay_ret os <> 0 -> Linux.glXChooseVisual_ret os <> 0 ->
   g_x_window p' = Linux.XCreateWindow_ret os /\
   g_glx_context p' = Linux.glXCreateContext_ret os).
Proof.
  cbv zeta. destruct p as [w d xw gc out cs].
  unfold Linux.native_create_window. run_m.
  destruct (truthy (Linux.XOpenDisplay_ret os)) eqn:Hd;
    [destruct (truthy (Linux.glXChooseVisual_ret os)) eqn:Hv|]; run_m.
  - apply truthy_true_iff in Hd, Hv.
    split; [reflexivity|]. split; [intros [H|H]; contradiction|auto].
  - apply truthy_false_iff in Hv.
    split; [reflexivity|]. split; [auto|intros _ H; contradiction].
  - apply truthy_false_iff in Hd.
    split; [reflexivity|]. split; [auto|intros H; contradiction].
Qed.

Lemma init_window_globals (pf : Platform) (os : CreateAnswers pf)
  (gl : GLStrings) (w h : Z) (title : string) (fullscreen vsync : Z)
  (p : Process) :
  let config :=
    mkWindowConfig w h title (truthy fullscreen) (truthy vsync) 2 1 in
  let p' := after (native_init_window pf os gl w h title fullscreen vsync) p in
  let c := after (native_create_window pf os config) p in
  g_window p' = g_window c /\ g_display p' = g_display c /\
  g_x_window p' = g_x_window c /\ g_glx_context p' = g_glx_context c.
Proof.
  cbv zeta. unfold native_init_window. rewrite after_bind.
  destruct (after (native_create_window pf os _) p) as [w0 d xw gc out cs].
  destruct (truthy (result (native_create_window pf os _) p)); run_m; auto.
Qed.

(** X7.  On X11, when the display opens and no visual is found,
    [native_init_window] answers 0 with the new display stored in
    [g_display] and not closed: it issues no call at all, whatever
    display [g_display] held before.  The display is closed by the next
    [native_destroy_window]. *)
Theorem X11_visual_failure_keeps_display
  (os : CreateAnswers X11) (gl : GLStrings) (w h : Z) (title : string)
  (fullscreen vsync : Z) (p : Process) :
  Linux.XOpenDisplay_ret os <> 0 ->
  Linux.glXChooseVisual_ret os = 0 ->
  let m := native_init_window X11 os gl w h title fullscreen vsync in
  result m p = 0 /\
  g_display (after m p) = Linux.XOpenDisplay_ret os /\
  emitted m p = [] /\
  In (Ext "XCloseDisplay" [AInt (Linux.XOpenDisplay_ret os)])
     (release_calls X11 (after m p)).
Proof.
  intros Hd Hv. cbv zeta.
  pose (config := mkWindowConfig w h title (truthy fullscreen)
                                 (truthy vsync) 2 1).
  assert (Hr : result (native_create_window X11 os config) p = 0).
  { cbn [native_create_window].
    destruct (Linux_create_cases os config p)
      as [(H & _)|[(_ & _ & Hr & _)|(_ & H & _)]];
      cbv zeta in *; try contradiction; assumption. }
  destruct (init_window_failure X11 os gl w h title fullscreen vsync p Hr)
    as (H0 & E).
  cbv zeta in H0, E. fold config in E.
  destruct (Linux_create_globals os config p) as (G1 & G2 & _).
  cbv zeta in G1, G2. destruct (G2 (or_intror Hv)) as (_ & _ & Gc).
  split; [exact H0|]. split; [rewrite E; exact G1|]. split.
  - apply emitted_app. rewrite E, app_nil_r. exact Gc.
  - rewrite E. cbn [native_create_window]. rewrite <- G1 at 1.
    apply release_calls_close_display. now rewrite G1.
Qed.

Lemma X11_visual_failure_keeps_display_witness :
  let os : CreateAnswers X11 := Linux.mkCreateAnswers 11 0 0 0 in
  let m := native_init_window X11 os (mkGLStrings "" "" "") 800 600
                              "PyFlare" 0 1 in
  result m Process_init = 0 /\
  g_display (after m Process_init) = 11 /\
  emitted m Process_init = [] /\
  In (Ext "XCloseDisplay" [AInt 11]) (release_calls X11 (after m Process_init)).
Proof.
  cbv zeta.
  apply (X11_visual_failure_keeps_display (Linux.mkCreateAnswers 11 0 0 0)
           (mkGLStrings "" "" "") 800 600 "PyFlare" 0 1 Process_init).
  - discriminate.
  - reflexivity.
Defined.

(** ** Which calls touch what *)

Lemma update_process (pf : Platform) (queue : list (Event pf))
  (clock : Clock pf) (p : Process) :
  let p' := after (native_update pf queue clock) p in
  g_display p' = g_display p /\
  g_x_window p' = g_x_window p /\
  g_glx_context p' = g_glx_context p /\
  stdout p' = stdout p /\
  calls p' = calls p ++ flat_map pump_calls queue.
Proof.
  cbv zeta. unfold native_update. rewrite after_bind.
  destruct (poll_events_process pf queue p) as (_ & Hd & Hx & Hg & Ho & Hc).
  cbv zeta in *. rewrite <- Hd, <- Hx, <- Hg, <- Ho, <- Hc.
  destruct (after (native_poll_events pf queue) p) as [w d xw gc out cs].
  run_m. auto.
Qed.

Lemma exec_frame_other (pf : Platform) (c : Call pf) (p : Process) :
  may_assign c = false ->
  let p' := after (exec c) p in
  g_window p' = g_window p /\ g_display p' = g_display p /\
  g_x_window p' = g_x_window p /\ g_glx_context p' = g_glx_context p.
Proof.
  intros Hc. cbv zeta. destruct p as [w d xw gc out cs].
  destruct c; try discriminate Hc; cbn [exec]; rewrite after_lift.
  - destruct pf; cbn [native_present native_swap_buffers];
      unfold Windows.native_swap_buffers, Linux.native_swap_buffers;
      run_m; auto.
  - run_m. auto.
  - run_m. auto.
  - run_m. auto.
  - unfold native_clear. run_m. auto.
  - unfold native_create_shader. run_m.
    destruct (truthy (vertex_COMPILE_STATUS gl)); [|run_m; auto].
    destruct (truthy (fragment_COMPILE_STATUS gl)); [|run_m; auto].
    destruct (truthy (program_LINK_STATUS gl)); run_m; auto.
  - unfold native_use_shader. run_m. auto.
  - unfold native_delete_shader. run_m. auto.
  - destruct pf; cbn [native_get_memory_usage MemoryAnswers] in *;
      [destruct (truthy (GetProcessMemoryInfo_ret os))|]; run_m; auto.
  - run_m. auto.
Qed.

Lemma exec_query (pf : Platform) (c : Call pf) (p : Process) :
  is_query c = true -> after (exec c) p = p.
Proof.
  intros Hc. destruct c; try discriminate Hc; cbn [exec]; rewrite after_lift;
    try reflexivity.
  destruct pf; cbn [native_get_memory_usage MemoryAnswers] in *;
    [destruct (truthy (GetProcessMemoryInfo_ret os))|]; reflexivity.
Qed.

(** X8.  Only [native_init_window], [native_destroy_window] and
    [native_update] assign to the window record or to the X11 globals:
    any sequence of the other ten calls, the shader and drawing calls
    included, leaves all of them as they were. *)
Theorem only_three_calls_assign
  (pf : Platform) (history : list (Call pf)) (p : Process) :
  forallb (fun c => negb (may_assign c)) history = true ->
  g_window (run history p) = g_window p /\
  g_display (run history p) = g_display p /\
  g_x_window (run history p) = g_x_window p /\
  g_glx_context (run history p) = g_glx_context p.
Proof.
  revert p. induction history as [|c h IH]; intros p H; [cbn; auto|].
  cbn [forallb] in H. apply andb_prop in H. destruct H as [Hc Hh].
  apply negb_true_iff in Hc. cbn [run].
  destruct (IH (after (exec c) p) Hh) as (I1 & I2 & I3 & I4).
  destruct (exec_frame_other pf c p Hc) as (F1 & F2 & F3 & F4).
  cbv zeta in *. rewrite I1, I2, I3, I4. auto.
Qed.

Lemma only_three_calls_assign_witness :
  let p := run [call_init_window (pf := X11) (Linux.mkCreateAnswers 11 1 2 3)
                  (mkGLStrings "2.1" "v" "r") 800 600 "PyFlare" 0 1]
               Process_init in
  let frame : list (Call X11) :=
    [call_clear (pf := X11) 0%float 0%float 0%float 1%float;
     call_create_shader (mkShaderAnswers 1 1 "" 2 0 "bad" 0 0 "") "v" "f";
     call_use_shader 0;
     call_present (pf := X11) tt;
     call_get_time (pf := X11) (Linux.mkTimespec 5 0)] in
  g_window (run frame p) = g_window p.
Proof.
  cbv zeta.
  apply (only_three_calls_assign X11
    [call_clear (pf := X11) 0%float 0%float 0%float 1%float;
     call_create_shader (mkShaderAnswers 1 1 "" 2 0 "bad" 0 0 "") "v" "f";
     call_use_shader 0;
     call_present (pf := X11) tt;
     call_get_time (pf := X11) (Linux.mkTimespec 5 0)]).
  reflexivity.
Defined.

(** X9.  The five queries ([native_is_window_open],
    [native_get_window_size], [native_get_delta_time],
    [native_get_memory_usage], [native_get_time]) change nothing, not
    even the logs: striking them out of a history leaves the process it
    reaches the same. *)
Theorem queries_change_nothing
  (pf : Platform) (history : list (Call pf)) (p : Process) :
  run (filter (fun c => negb (is_query c)) history) p = run history p.
Proof.
  revert p. induction history as [|c h IH]; intros p; [reflexivity|].
  cbn [filter run]. destruct (is_query c) eqn:Hq; cbn [negb].
  - rewrite (exec_query pf c p Hq). apply IH.
  - cbn [run]. apply IH.
Qed.

(** ** The handles along a history *)

Lemma exec_handles_kept (pf : Platform) (c : Call pf) (p : Process) :
  is_init c = false ->
  let p' := after (exec c) p in
  native_handle (g_window p') = native_handle (g_window p) /\
  gl_context (g_window p') = gl_context (g_window p) /\
  g_display p' = g_display p /\
  g_x_window p' = g_x_window p /\
  g_glx_context p' = g_glx_context p.
Proof.
  intros Hc. cbv zeta.
  destruct (may_assign c) eqn:Ha.
  - destruct c; try discriminate Hc; try discriminate Ha; cbn [exec];
      rewrite after_lift.
    + destruct (destroy_window_process pf p) as (Hd & Hx & Hg & _).
      cbv zeta in *. rewrite destroy_window_window, Hd, Hx, Hg. cbn. auto.
    + destruct (update_process pf queue clock p) as (Hd & Hx & Hg & _).
      destruct (fold_pump_timing pf queue (g_window p)) as (_ & _ & Th & Tc).
      cbv zeta in *. rewrite update_window, Hd, Hx, Hg. cbn. auto.
  - destruct (exec_frame_other pf c p Ha) as (F1 & F2 & F3 & F4).
    cbv zeta in *. rewrite F1. auto.
Qed.

Lemma run_handles_kept (pf : Platform) (h : list (Call pf)) (p : Process) :
  forallb (fun c => negb (is_init c)) h = true ->
  native_handle (g_window (run h p)) = native_handle (g_window p) /\
  gl_context (g_window (run h p)) = gl_context (g_window p) /\
  g_display (run h p) = g_display p /\
  g_x_window (run h p) = g_x_window p /\
  g_glx_context (run h p) = g_glx_context p.
Proof.
  revert p. induction h as [|c h IH]; intros p H; [cbn; auto|].
  cbn [forallb] in H. apply andb_prop in H. destruct H as [Hc Hh].
  apply negb_true_iff in Hc. cbn [run].
  destruct (IH (after (exec c) p) Hh) as (I1 & I2 & I3 & I4 & I5).
  destruct (exec_handles_kept pf c p Hc) as (F1 & F2 & F3 & F4 & F5).
  cbv zeta in *. rewrite I1, I2, I3, I4, I5. auto.
Qed.

(** X10.  On X11 the window id and the GLX context are kept twice, in
    [g_window] and in the globals [g_x_window] and [g_glx_context] that
    [native_destroy_window] and [native_swap_buffers] read; the two
    copies agree at load time and after every history of calls. *)
Theorem X11_handles_agree (history : list (Call X11)) (p : Process) :
  native_handle (g_window p) = g_x_window p ->
  gl_context (g_window p) = g_glx_context p ->
  native_handle (g_window (run history p)) = g_x_window (run history p) /\
  gl_context (g_window (run history p)) = g_glx_context (run history p).
Proof.
  revert p. induction history as [|c h IH]; intros p H1 H2; [cbn; auto|].
  cbn [run]. apply IH.
  - destruct (is_init c) eqn:Hc.
    + destruct c as [os gl wd ht title fullscreen vsync| | | | | | | | | | | |];
        try discriminate Hc. cbn [exec]. rewrite after_lift.
      destruct (init_window_globals X11 os gl wd ht title
                                    fullscreen vsync p) as (Gw & _ & Gx & _).
      cbv zeta in Gw, Gx. rewrite Gw, Gx. cbn [native_create_window].
      destruct (Linux_create_globals os
                  (mkWindowConfig wd ht title (truthy fullscreen)
                                  (truthy vsync) 2 1) p) as (_ & Gf & Gs).
      destruct (Linux_create_cases os
                  (mkWindowConfig wd ht title (truthy fullscreen)
                                  (truthy vsync) 2 1) p)
        as [(Hd & _ & Hw & _)|[(_ & Hv & _ & Hw & _)|(Hd & Hv & _ & _ & Hw)]];
        cbv zeta in *.
      * destruct (Gf (or_introl Hd)) as (Ex & _). now rewrite Hw, Ex.
      * destruct (Gf (or_intror Hv)) as (Ex & _). now rewrite Hw, Ex.
      * destruct (Gs Hd Hv) as (Ex & _). now rewrite Hw, Ex.
    + destruct (exec_handles_kept X11 c p Hc) as (F1 & _ & _ & F4 & _).
      cbv zeta in *. now rewrite F1, F4.
  - destruct (is_init c) eqn:Hc.
    + destruct c as [os gl wd ht title fullscreen vsync| | | | | | | | | | | |];
        try discriminate Hc. cbn [exec]. rewrite after_lift.
      destruct (init_window_globals X11 os gl wd ht title
                                    fullscreen vsync p) as (Gw & _ & _ & Gg).
      cbv zeta in Gw, Gg. rewrite Gw, Gg. cbn [native_create_window].
      destruct (Linux_create_globals os
                  (mkWindowConfig wd ht title (truthy fullscreen)
                                  (truthy vsync) 2 1) p) as (_ & Gf & Gs).
      destruct (Linux_create_cases os
                  (mkWindowConfig wd ht title (truthy fullscreen)
                                  (truthy vsync) 2 1) p)
        as [(Hd & _ & Hw & _)|[(_ & Hv & _ & Hw & _)|(Hd & Hv & _ & _ & Hw)]];
        cbv zeta in *.
      * destruct (Gf (or_introl Hd)) as (_ & Eg & _). now rewrite Hw, Eg.
      * destruct (Gf (or_intror Hv)) as (_ & Eg & _). now rewrite Hw, Eg.
      * destruct (Gs Hd Hv) as (_ & Eg). now rewrite Hw, Eg.
    + destruct (exec_handles_kept X11 c p Hc) as (_ & F2 & _ & _ & F5).
      cbv zeta in *. now rewrite F2, F5.
Qed.

Lemma X11_handles_agree_witness :
  let h : list (Call X11) :=
    [call_init_window (pf := X11) (Linux.mkCreateAnswers 11 1 2 3)
       (mkGLStrings "2.1" "v" "r") 800 600 "PyFlare" 0 1;
     call_destroy_window;
     call_init_window (pf := X11) (Linux.mkCreateAnswers 12 0 0 0)
       (mkGLStrings "2.1" "v" "r") 640 480 "PyFlare" 0 1] in
  native_handle (g_window (run h Process_init)) = g_x_window (run h Process_init)
  /\ g_x_window (run h Process_init) = 2
  /\ g_display (run h Process_init) = 12.
Proof.
  cbv zeta. split; [|split; reflexivity].
  apply (X11_handles_agree
    [call_init_window (pf := X11) (Linux.mkCreateAnswers 11 1 2 3)
       (mkGLStrings "2.1" "v" "r") 800 600 "PyFlare" 0 1;
     call_destroy_window;
     call_init_window (pf := X11) (Linux.mkCreateAnswers 12 0 0 0)
       (mkGLStrings "2.1" "v" "r") 640 480 "PyFlare" 0 1]
    Process_init); reflexivity.
Defined.

Lemma init_success_create (pf : Platform) (os : CreateAnswers pf)
  (gl : GLStrings) (w h : Z) (title : string) (fullscreen vsync : Z)
  (p : Process) :
  result (native_init_window pf os gl w h title fullscreen vsync) p = 1 ->
  result (native_create_window pf os
            (mkWindowConfig w h title (truthy fullscreen) (truthy vsync) 2 1))
         p <> 0.
Proof.
  intros Hr H0.
  destruct (init_window_failure pf os gl w h title fullscreen vsync p H0)
    as (E & _). cbv zeta in E. congruence.
Qed.

Lemma init_success_handle (pf : Platform) (os : CreateAnswers pf)
  (gl : GLStrings) (w h : Z) (title : string) (fullscreen vsync : Z)
  (p : Process) :
  result (native_init_window pf os gl w h title fullscreen vsync) p = 1 ->
  native_handle
    (g_window (after (native_init_window pf os gl w h title fullscreen vsync)
                     p))
  = created_handle pf os.
Proof.
  intros Hr. pose proof (init_success_create pf os gl w h title fullscreen
                                             vsync p Hr) as Hnz.
  destruct (init_window_globals pf os gl w h title fullscreen vsync p)
    as (Gw & _).
  destruct (create_window_success_state pf os _ p Hnz) as (C1 & _).
  cbv zeta in *. now rewrite Gw.
Qed.

Lemma X11_init_success_globals (os : CreateAnswers X11)
  (gl : GLStrings) (w h : Z) (title : string) (fullscreen vsync : Z)
  (p : Process) :
  result (native_init_window X11 os gl w h title fullscreen vsync) p = 1 ->
  let p' := after (native_init_window X11 os gl w h title fullscreen vsync) p in
  g_display p' = Linux.XOpenDisplay_ret os /\
  g_x_window p' = Linux.XCreateWindow_ret os /\
  g_glx_context p' = Linux.glXCreateContext_ret os.
Proof.
  intros Hr. pose proof (init_success_create X11 os gl w h title fullscreen
                                             vsync p Hr) as Hnz.
  destruct (init_window_globals X11 os gl w h title fullscreen vsync p)
    as (_ & Gd & Gx & Gg).
  cbv zeta in *. rewrite Gd, Gx, Gg.
  cbn [native_create_window CreateAnswers] in *.
  destruct (Linux_create_globals os
              (mkWindowConfig w h title (truthy fullscreen) (truthy vsync)
                              2 1) p) as (G1 & _ & Gs).
  destruct (Linux_create_cases os
              (mkWindowConfig w h title (truthy fullscreen) (truthy vsync)
                              2 1) p)
    as [(_ & Hr' & _)|[(_ & _ & Hr' & _)|(Hd & Hv & _)]];
    cbv zeta in *; try contradiction.
  destruct (Gs Hd Hv) as (Ex & Eg). auto.
Qed.

(** ** Presenting *)

(** X11.  [native_present] swaps the buffers of the window the last
    successful [native_init_window] created, and it does so whatever
    happened since: it reads the handles only, never the open flag, so
    after a close event or after [native_destroy_window] it still issues
    the same swap on the same handles. *)
Theorem native_present_targets_created_window :
  (forall (os : CreateAnswers Win32) (gl : GLStrings) (w h : Z)
          (title : string) (fullscreen vsync : Z)
          (later : list (Call Win32)) (p : Process) (hdc : Z),
      result (native_init_window Win32 os gl w h title fullscreen vsync) p = 1 ->
      forallb (fun c => negb (is_init c)) later = true ->
      emitted (native_present Win32 hdc)
              (run later (after (native_init_window Win32 os gl w h title
                                                    fullscreen vsync) p)) =
      [Ext "SwapBuffers" [AInt hdc];
       Ext "ReleaseDC" [AInt (Windows.CreateWindowEx_ret os); AInt hdc]])
  /\
  (forall (os : CreateAnswers X11) (gl : GLStrings) (w h : Z)
          (title : string) (fullscreen vsync : Z)
          (later : list (Call X11)) (p : Process),
      result (native_init_window X11 os gl w h title fullscreen vsync) p = 1 ->
      forallb (fun c => negb (is_init c)) later = true ->
      emitted (native_present X11 tt)
              (run later (after (native_init_window X11 os gl w h title
                                                    fullscreen vsync) p)) =
      [Ext "glXSwapBuffers" [AInt (Linux.XOpenDisplay_ret os);
                             AInt (Linux.XCreateWindow_ret os)]]).
Proof.
  split.
  - intros os gl w h title fullscreen vsync later p hdc Hr Hlater.
    pose proof (init_success_handle Win32 os gl w h title fullscreen vsync
                                    p Hr) as Hh.
    destruct (run_handles_kept Win32 later
                (after (native_init_window Win32 os gl w h title fullscreen
                                           vsync) p) Hlater) as (K1 & _).
    rewrite Hh in K1. cbn [created_handle] in K1.
    destruct (run later _) as [[nh ctx wd ht op lt dt] d xw gc out cs].
    cbn [g_window native_handle] in K1. subst nh.
    apply emitted_app.
    unfold native_present, native_swap_buffers, Windows.native_swap_buffers.
    run_m. run_fields. rewrite <- app_assoc. reflexivity.
  - intros os gl w h title fullscreen vsync later p Hr Hlater.
    destruct (X11_init_success_globals os gl w h title fullscreen vsync p Hr)
      as (Hd & Hx & _).
    destruct (run_handles_kept X11 later
                (after (native_init_window X11 os gl w h title fullscreen
                                           vsync) p) Hlater)
      as (_ & _ & K3 & K4 & _).
    cbv zeta in *. rewrite Hd in K3. rewrite Hx in K4.
    destruct (run later _) as [w0 d xw gc out cs].
    cbn [g_display g_x_window] in K3, K4. subst d xw.
    apply emitted_app.
    unfold native_present, native_swap_buffers, Linux.native_swap_buffers.
    run_m. reflexivity.
Qed.

Lemma native_present_targets_created_window_witness :
  let init := native_init_window X11 (Linux.mkCreateAnswers 11 1 2 3)
                (mkGLStrings "2.1" "v" "r") 800 600 "PyFlare" 0 1 in
  let later : list (Call X11) :=
    [call_update (pf := X11) [Linux.ClientMessage] (Linux.mkTimespec 5 0);
     call_destroy_window] in
  is_open (g_window (run later (after init Process_init))) = false /\
  emitted (native_present X11 tt) (run later (after init Process_init)) =
  [Ext "glXSwapBuffers" [AInt 11; AInt 2]].
Proof.
  cbv zeta. split; [reflexivity|].
  apply (proj2 native_present_targets_created_window
           (Linux.mkCreateAnswers 11 1 2 3) (mkGLStrings "2.1" "v" "r")
           800 600 "PyFlare" 0 1
           [call_update (pf := X11) [Linux.ClientMessage]
                        (Linux.mkTimespec 5 0);
            call_destroy_window]
           Process_init); reflexivity.
Defined.

(** ** Diagnostics *)

Lemma create_window_stdout (pf : Platform) (os : CreateAnswers pf)
  (config : WindowConfig) (p : Process) :
  result (native_create_window pf os config) p = 0 ->
  exists line, stdout (after (native_create_window pf os config) p)
               = stdout p ++ [line].
Proof.
  intros Hr. destruct pf; cbn [native_create_window CreateAnswers] in *.
  - destruct (Windows_create_cases os config p)
      as [(_ & _ & _ & Ho)|[(_ & _ & _ & _ & Ho)|(_ & _ & Hr' & _)]];
      cbv zeta in *; try congruence; eauto.
  - destruct (Linux_create_cases os config p)
      as [(_ & _ & _ & Ho)|[(_ & _ & _ & _ & Ho)|(_ & _ & Hr' & _)]];
      cbv zeta in *; try congruence; eauto.
Qed.

Lemma exec_stdout (pf : Platform) (c : Call pf) (p : Process) :
  exists out,
    stdout (after (exec c) p) = stdout p ++ out /\
    (List.length out <= 4)%nat /\
    (may_print c = false -> out = []).
Proof.
  destruct c as [os gl wd ht title fullscreen vsync| |queue clock|os| | |
                 |r g b a|gl vs fs|id|id|os|clock];
    cbn [exec may_print]; rewrite after_lift.
  - pose (config := mkWindowConfig wd ht title (truthy fullscreen)
                                   (truthy vsync) 2 1).
    destruct (Z.eq_dec (result (native_create_window pf os config) p) 0)
      as [Hr|Hr].
    + destruct (init_window_failure pf os gl wd ht title fullscreen vsync
                                    p Hr) as (_ & E).
      destruct (create_window_stdout pf os config p Hr) as (line & Ho).
      cbv zeta in E. rewrite E. exists [line].
      split; [exact Ho|]. split; [cbn; lia|discriminate].
    + destruct (init_window_success pf os gl wd ht title fullscreen vsync
                                    p Hr) as (_ & _ & Ho).
      destruct (create_window_success_state pf os config p Hr)
        as (_ & _ & _ & _ & _ & _ & Hs).
      cbv zeta in Ho, Hs. fold config in Ho. rewrite Hs in Ho.
      eexists. split; [exact Ho|]. split; [cbn; lia|discriminate].
  - destruct (destroy_window_process pf p) as (_ & _ & _ & Ho & _).
    eexists. split; [exact Ho|]. split; [cbn; lia|discriminate].
  - destruct (update_process pf queue clock p) as (_ & _ & _ & Ho & _).
    exists []. rewrite app_nil_r. split; [exact Ho|]. split; [cbn; lia|auto].
  - exists []. rewrite app_nil_r. split; [|split; [cbn; lia|auto]].
    destruct p as [w d xw gc out cs].
    destruct pf; cbn [native_present native_swap_buffers];
      unfold Windows.native_swap_buffers, Linux.native_swap_buffers;
      run_m; reflexivity.
  - exists []. rewrite app_nil_r. split; [reflexivity|split; [cbn; lia|auto]].
  - exists []. rewrite app_nil_r. split; [reflexivity|split; [cbn; lia|auto]].
  - exists []. rewrite app_nil_r. split; [reflexivity|split; [cbn; lia|auto]].
  - exists []. rewrite app_nil_r. split; [|split; [cbn; lia|auto]].
    destruct p as [w d xw gc out cs]. unfold native_clear. run_m. reflexivity.
  - destruct p as [w d xw gc out cs]. unfold native_create_shader. run_m.
    destruct (truthy (vertex_COMPILE_STATUS gl));
      [|run_m; eexists; split; [reflexivity|split; [cbn; lia|discriminate]]].
    destruct (truthy (fragment_COMPILE_STATUS gl));
      [|run_m; eexists; split; [reflexivity|split; [cbn; lia|discriminate]]].
    destruct (truthy (program_LINK_STATUS gl)); run_m.
    + exists []. rewrite app_nil_r.
      split; [reflexivity|split; [cbn; lia|discriminate]].
    + eexists; split; [reflexivity|split; [cbn; lia|discriminate]].
  - exists []. rewrite app_nil_r. split; [|split; [cbn; lia|auto]].
    destruct p as [w d xw gc out cs]. unfold native_use_shader. run_m.
    reflexivity.
  - exists []. rewrite app_nil_r. split; [|split; [cbn; lia|auto]].
    destruct p as [w d xw gc out cs]. unfold native_delete_shader. run_m.
    reflexivity.
  - exists []. rewrite app_nil_r. split; [|split; [cbn; lia|auto]].
    destruct pf; cbn [native_get_memory_usage MemoryAnswers] in *;
      [destruct (truthy (GetProcessMemoryInfo_ret os))|]; reflexivity.
  - exists []. rewrite app_nil_r. split; [reflexivity|split; [cbn; lia|auto]].
Qed.

(** X12.  Standard output is only appended to, and only by
    [native_init_window], [native_destroy_window] and
    [native_create_shader], each of which prints at most four lines per
    call: a history prints nothing when it holds none of the three, and
    never more than four lines for each one it holds. *)
Theorem diagnostics_are_appended
  (pf : Platform) (history : list (Call pf)) (p : Process) :
  exists out,
    stdout (run history p) = stdout p ++ out /\
    (List.length out <= 4 * List.length (filter may_print history))%nat /\
    (forallb (fun c => negb (may_print c)) history = true -> out = []).
Proof.
  revert p. induction history as [|c h IH]; intros p.
  - exists []. cbn. rewrite app_nil_r. auto.
  - cbn [run]. destruct (exec_stdout pf c p) as (o1 & H1 & L1 & N1).
    destruct (IH (after (exec c) p)) as (o2 & H2 & L2 & N2).
    exists (o1 ++ o2). rewrite H2, H1, app_assoc. split; [reflexivity|].
    split.
    + rewrite length_app. cbn [filter].
      destruct (may_print c) eqn:Hc.
      * cbn [List.length]. lia.
      * rewrite (N1 eq_refl). cbn [List.length]. lia.
    + cbn [forallb]. intros H. apply andb_prop in H. destruct H as [Hc Hh].
      apply negb_true_iff in Hc. now rewrite (N1 Hc), (N2 Hh).
Qed.

(** ** What [native_create_shader] creates and releases *)

(** X13.  [native_create_shader] works in stages and stops at the first
    failure: the fragment source is not even submitted when the vertex
    shader fails, and no program is linked when either shader fails.
    The two shader objects are deleted on the success path only: every
    failure path returns without deleting what it created, and no path
    deletes the program. *)
Theorem native_create_shader_emits
  (gl : ShaderAnswers) (vertex_src fragment_src : string) (p : Process) :
  let k := emitted (native_create_shader gl vertex_src fragment_src) p in
  let vs := glCreateShader_vertex gl in
  let fs := glCreateShader_fragment gl in
  let prog := glCreateProgram_ret gl in
  let compile_vertex :=
    [Ext "glShaderSource" [AInt vs; AInt 1; AStr vertex_src];
     Ext "glCompileShader" [AInt vs]] in
  let compile_fragment :=
    [Ext "glShaderSource" [AInt fs; AInt 1; AStr fragment_src];
     Ext "glCompileShader" [AInt fs]] in
  let link :=
    [Ext "glAttachShader" [AInt prog; AInt vs];
     Ext "glAttachShader" [AInt prog; AInt fs];
     Ext "glLinkProgram" [AInt prog]] in
  (vertex_COMPILE_STATUS gl = 0 -> k = compile_vertex) /\
  (vertex_COMPILE_STATUS gl <> 0 -> fragment_COMPILE_STATUS gl = 0 ->
   k = compile_vertex ++ compile_fragment) /\
  (vertex_COMPILE_STATUS gl <> 0 -> fragment_COMPILE_STATUS gl <> 0 ->
   program_LINK_STATUS gl = 0 ->
   k = compile_vertex ++ compile_fragment ++ link) /\
  (vertex_COMPILE_STATUS gl <> 0 -> fragment_COMPILE_STATUS gl <> 0 ->
   program_LINK_STATUS gl <> 0 ->
   k = compile_vertex ++ compile_fragment ++ link ++
       [Ext "glDeleteShader" [AInt vs]; Ext "glDeleteShader" [AInt fs]]) /\
  (result (native_create_shader gl vertex_src fragment_src) p = 0 ->
   glCreateProgram_ret gl <> 0 ->
   Forall (fun c => ext_name c <> "glDeleteShader") k) /\
  Forall (fun c => ext_name c <> "glDeleteProgram") k.
Proof.
  cbv zeta. destruct p as [w d xw gc out cs].
  assert (Hne : forall a b : string, String.eqb a b = false -> a <> b).
  { intros a b H E. apply String.eqb_eq in E. congruence. }
  unfold emitted, native_create_shader. run_m.
  destruct (truthy (vertex_COMPILE_STATUS gl)) eqn:Hv; run_m.
  2:{ apply truthy_false_iff in Hv. rewrite <- !app_assoc. cbn [app].
      rewrite skipn_length_app.
      repeat split; intros; try contradiction; try reflexivity;
        repeat constructor; cbn; apply Hne; reflexivity. }
  apply truthy_true_iff in Hv.
  destruct (truthy (fragment_COMPILE_STATUS gl)) eqn:Hf; run_m.
  2:{ apply truthy_false_iff in Hf. rewrite <- !app_assoc. cbn [app].
      rewrite skipn_length_app.
      repeat split; intros; try contradiction; try reflexivity;
        repeat constructor; cbn; apply Hne; reflexivity. }
  apply truthy_true_iff in Hf.
  destruct (truthy (program_LINK_STATUS gl)) eqn:Hl; run_m.
  2:{ apply truthy_false_iff in Hl. rewrite <- !app_assoc. cbn [app].
      rewrite skipn_length_app.
      repeat split; intros; try contradiction; try reflexivity;
        repeat constructor; cbn; apply Hne; reflexivity. }
  apply truthy_true_iff in Hl. rewrite <- !app_assoc. cbn [app].
  rewrite skipn_length_app.
  repeat split; intros; try contradiction; try reflexivity;
    repeat constructor; cbn; apply Hne; reflexivity.
Qed.

Lemma native_create_shader_emits_witness :
  let bad := mkShaderAnswers 1 1 "" 2 1 "" 3 0 "link error" in
  let m := native_create_shader bad "v" "f" in
  result m Process_init = 0 /\
  Forall (fun c => ext_name c <> "glDeleteShader") (emitted m Process_init).
Proof.
  cbv zeta. split; [reflexivity|].
  apply (proj1 (proj2 (proj2 (proj2 (proj2 (native_create_shader_emits
    (mkShaderAnswers 1 1 "" 2 1 "" 3 0 "link error") "v" "f" Process_init))))));
    [reflexivity|discriminate].
Defined.

(** ** Delta time at the start *)

(** X14.  [delta_time] is assigned by [native_update] and by nothing
    else: before the first [native_update] of a process,
    [native_get_delta_time] answers 0.0, whatever windows were created
    or destroyed in the meantime. *)
Theorem native_get_delta_time_before_first_update
  (pf : Platform) (history : list (Call pf)) :
  forallb (fun c => negb (is_update c)) history = true ->
  result native_get_delta_time (run history Process_init) = 0%float.
Proof.
  intros H. rewrite get_delta_time_result.
  now rewrite (run_delta_time_kept pf history Process_init H).
Qed.

Lemma native_get_delta_time_before_first_update_witness :
  result native_get_delta_time
    (run [call_init_window (pf := Win32)
            (Windows.mkCreateAnswers 1 7 1 1 1 5000)
            (mkGLStrings "2.1" "v" "r") 800 600 "PyFlare" 0 1;
          call_present (pf := Win32) 9;
          call_destroy_window] Process_init) = 0%float.
Proof.
  apply (native_get_delta_time_before_first_update Win32
    [call_init_window (pf := Win32) (Windows.mkCreateAnswers 1 7 1 1 1 5000)
       (mkGLStrings "2.1" "v" "r") 800 600 "PyFlare" 0 1;
     call_present (pf := Win32) 9;
     call_destroy_window]).
  reflexivity.
Defined.

(** X15.  On Win32 the first [native_update] after a successful window
    creation measures from the creation: [delta_time] becomes the tick
    count read by the update minus the tick count read at creation, both
    in seconds, whatever calls other than updates and creations came
    between. *)
Theorem Windows_first_update_measures_from_creation
  (os : CreateAnswers Win32) (gl : GLStrings) (w h : Z) (title : string)
  (fullscreen vsync : Z) (earlier between : list (Call Win32))
  (queue : list (Event Win32)) (ticks : Z) (p : Process) :
  Windows.RegisterClassEx_ret os <> 0 ->
  Windows.CreateWindowEx_ret os <> 0 ->
  Forall (fun c => stores_time c = None) between ->
  result native_get_delta_time
         (run (earlier ++
               call_init_window os gl w h title fullscreen vsync ::
               between ++ [call_update queue ticks]) p)
  = (Windows.tick_seconds ticks
     - Windows.tick_seconds (Windows.GetTickCount_ret os))%float.
Proof.
  intros Hreg Hwnd Hbetween.
  replace (earlier ++ call_init_window os gl w h title fullscreen vsync ::
             between ++ [call_update queue ticks])
    with ((earlier ++ call_init_window os gl w h title fullscreen vsync ::
             between) ++ call_update queue ticks :: [])
    by (rewrite <- app_assoc; reflexivity).
  rewrite (delta_time_after_update Win32 _ [] queue ticks p eq_refl).
  cbn [clock_seconds]. f_equal.
  unfold stored_time. rewrite fold_left_app. cbn [fold_left stores_time].
  fold (stored_time between
          match creation_time Win32 os with
          | Some t' => t'
          | None => fold_left
                      (fun t c => match stores_time c with
                                  | Some t' => t'
                                  | None => t
                                  end) earlier (last_time (g_window p))
          end).
  rewrite (stored_time_none Win32 between _ Hbetween).
  cbn [creation_time].
  apply truthy_true_iff in Hreg, Hwnd. now rewrite Hreg, Hwnd.
Qed.

Lemma Windows_first_update_measures_from_creation_witness :
  result native_get_delta_time
         (run ([] ++
               call_init_window (pf := Win32)
                 (Windows.mkCreateAnswers 1 7 1 1 1 5000)
                 (mkGLStrings "2.1" "v" "r") 800 600 "PyFlare" 0 1 ::
               [call_present (pf := Win32) 9] ++
               [call_update (pf := Win32) [] 5250]) Process_init)
  = 0.25%float.
Proof.
  change 0.25%float
    with (Windows.tick_seconds 5250 - Windows.tick_seconds 5000)%float.
  apply (Windows_first_update_measures_from_creation
           (Windows.mkCreateAnswers 1 7 1 1 1 5000)
           (mkGLStrings "2.1" "v" "r") 800 600 "PyFlare" 0 1
           [] [call_present (pf := Win32) 9] [] 5250 Process_init).
  - discriminate.
  - discriminate.
  - repeat constructor.
Defined.

(** ** The range of [native_get_memory_usage] *)

Lemma to_long32_range (z : Z) : - 2 ^ 31 <= to_long32 z < 2 ^ 31.
Proof.
  unfold to_long32.
  pose proof (Z.mod_pos_bound (z + 2 ^ 31) (2 ^ 32) eq_refl) as H.
  change (2 ^ 32) with 4294967296 in *.
  change (2 ^ 31) with 2147483648 in *. lia.
Qed.

Lemma to_long32_congruent (z : Z) : to_long32 z mod 2 ^ 32 = z mod 2 ^ 32.
Proof.
  unfold to_long32. rewrite Zminus_mod_idemp_l. f_equal. lia.
Qed.

(** X16.  What [native_get_memory_usage] answers always fits the 32-bit
    [long] of Win32; on a successful query it is the working-set size
    reduced modulo 2^32 into the signed range, so the size is handed
    back exactly when it is below 2 GiB and its low 32 bits are kept in
    every case. *)
Theorem native_get_memory_usage_range :
  (forall (pf : Platform) (os : MemoryAnswers pf) (p : Process),
      - 2 ^ 31 <= result (native_get_memory_usage pf os) p < 2 ^ 31)
  /\
  (forall (pmc : MemoryInfo) (p : Process),
      GetProcessMemoryInfo_ret pmc <> 0 ->
      result (native_get_memory_usage Win32 pmc) p mod 2 ^ 32
      = WorkingSetSize pmc mod 2 ^ 32 /\
      (0 <= WorkingSetSize pmc < 2 ^ 31 ->
       result (native_get_memory_usage Win32 pmc) p = WorkingSetSize pmc) /\
      (2 ^ 31 <= WorkingSetSize pmc < 2 ^ 32 ->
       result (native_get_memory_usage Win32 pmc) p
       = WorkingSetSize pmc - 2 ^ 32)).
Proof.
  split.
  - intros pf os p.
    destruct pf; cbn [native_get_memory_usage MemoryAnswers] in *.
    + destruct (truthy (GetProcessMemoryInfo_ret os)); cbn.
      * apply to_long32_range.
      * change (2 ^ 31) with 2147483648. lia.
    + cbn. change (2 ^ 31) with 2147483648. lia.
  - intros pmc p H. apply truthy_true_iff in H.
    cbn [native_get_memory_usage]. rewrite H. cbn [result ret fst].
    unfold result, ret. cbn [fst].
    split; [apply to_long32_congruent|]. split.
    + apply to_long32_small.
    + intros Hr. unfold to_long32.
      change (2 ^ 32) with 4294967296 in *.
      change (2 ^ 31) with 2147483648 in *.
      replace (WorkingSetSize pmc + 2147483648)
        with (WorkingSetSize pmc - 2147483648 + 1 * 4294967296) by lia.
      rewrite Z.mod_add by lia. rewrite Z.mod_small by lia. lia.
Qed.

(** ** When the window is open *)

Lemma init_result_creation (pf : Platform) (os : CreateAnswers pf)
  (gl : GLStrings) (w h : Z) (title : string) (fullscreen vsync : Z)
  (p : Process) :
  result (native_init_window pf os gl w h title fullscreen vsync) p =
  if creation_succeeds pf os then 1 else 0.
Proof.
  pose (config := mkWindowConfig w h title (truthy fullscreen)
                                 (truthy vsync) 2 1).
  assert (Hc : result (native_create_window pf os config) p =
               if creation_succeeds pf os then 1 else 0).
  { destruct pf; cbn [native_create_window CreateAnswers creation_succeeds]
      in *.
    - destruct (Windows_create_cases os config p)
        as [(Hreg & Hr & _)|[(Hreg & Hwnd & Hr & _)|(Hreg & Hwnd & Hr & _)]];
        cbv zeta in *; rewrite Hr.
      + now rewrite (proj2 (truthy_false_iff _) Hreg).
      + now rewrite (proj2 (truthy_false_iff _) Hwnd), andb_false_r.
      + now rewrite (proj2 (truthy_true_iff _) Hreg),
          (proj2 (truthy_true_iff _) Hwnd).
    - destruct (Linux_create_cases os config p)
        as [(Hd & Hr & _)|[(Hd & Hv & Hr & _)|(Hd & Hv & Hr & _)]];
        cbv zeta in *; rewrite Hr.
      + now rewrite (proj2 (truthy_false_iff _) Hd).
      + now rewrite (proj2 (truthy_false_iff _) Hv), andb_false_r.
      + now rewrite (proj2 (truthy_true_iff _) Hd),
          (proj2 (truthy_true_iff _) Hv). }
  destruct (creation_succeeds pf os).
  - assert (Hnz : result (native_create_window pf os config) p <> 0)
      by (rewrite Hc; discriminate).
    now destruct (init_window_success pf os gl w h title fullscreen vsync
                                      p Hnz) as (H1 & _).
  - now destruct (init_window_failure pf os gl w h title fullscreen vsync
                                      p Hc) as (H0 & _).
Qed.

Lemma exec_is_open (pf : Platform) (c : Call pf) (p : Process) :
  is_open (g_window (after (exec c) p)) =
  if opens c then true
  else if closes c then false
  else is_open (g_window p).
Proof.
  pose proof (exec_window_other pf c p) as Hother.
  destruct c as [os gl wd ht title fullscreen vsync| |queue clock|os| | |
                 |r g b a|gl vs fs|id|id|os|clock];
    cbn [opens closes]; try (now rewrite Hother).
  - cbn [exec]. rewrite after_lift.
    pose proof (init_result_creation pf os gl wd ht title fullscreen vsync p)
      as Hr.
    destruct (init_window_window pf os gl wd ht title fullscreen vsync p)
      as [(H0 & Hw & _)|(H1 & Ho & _)]; cbv zeta in *.
    + rewrite H0 in Hr. destruct (creation_succeeds pf os);
        [discriminate Hr|now rewrite Hw].
    + rewrite H1 in Hr. destruct (creation_succeeds pf os);
        [exact Ho|discriminate Hr].
  - cbn [exec]. now rewrite after_lift, destroy_window_window.
  - cbn [exec]. rewrite after_lift, update_window. cbn.
    rewrite fold_pump_is_open.
    destruct (existsb is_close_event queue); cbn;
      [apply andb_false_r|apply andb_true_r].
Qed.

(** X17.  Whether [native_init_window] succeeds is decided by what the
    system answers, never by the record: it does not look whether a
    window is already open.  And the open flag follows the last call
    that touched it: [native_is_window_open] answers 1 exactly after a
    successful [native_init_window] followed by no
    [native_destroy_window] and no close event, and 0 after a
    [native_destroy_window] or a close event followed by no successful
    [native_init_window]. *)
Theorem window_open_after_history
  (pf : Platform) (earlier later : list (Call pf)) (c : Call pf)
  (p : Process) :
  (forall (os : CreateAnswers pf) (gl : GLStrings) (w h : Z) (title : string)
          (fullscreen vsync : Z) (q : Process),
      result (native_init_window pf os gl w h title fullscreen vsync) p =
      result (native_init_window pf os gl w h title fullscreen vsync) q)
  /\
  (opens c = true ->
   forallb (fun c' => negb (closes c')) later = true ->
   result native_is_window_open (run (earlier ++ c :: later) p) = 1)
  /\
  (closes c = true ->
   forallb (fun c' => negb (opens c')) later = true ->
   result native_is_window_open (run (earlier ++ c :: later) p) = 0).
Proof.
  split; [|split].
  - intros os gl w h title fullscreen vsync q.
    now rewrite !init_result_creation.
  - intros Hc Hlater. rewrite run_app. cbn [run].
    generalize (run earlier p) as p0. intros p0.
    assert (H0 : is_open (g_window (after (exec c) p0)) = true)
      by (now rewrite exec_is_open, Hc).
    revert H0. generalize (after (exec c) p0) as p1.
    induction later as [|c' l IH]; intros p1 H1.
    + unfold result, native_is_window_open, bind, get_window, ret. cbn.
      now rewrite H1.
    + cbn [forallb] in Hlater. apply andb_prop in Hlater.
      destruct Hlater as [Hc' Hl]. apply negb_true_iff in Hc'.
      cbn [run]. apply (IH Hl).
      rewrite exec_is_open, Hc'. now destruct (opens c').
  - intros Hc Hlater. rewrite run_app. cbn [run].
    generalize (run earlier p) as p0. intros p0.
    assert (H0 : is_open (g_window (after (exec c) p0)) = false).
    { rewrite exec_is_open, Hc.
      destruct c; try discriminate Hc; reflexivity. }
    revert H0. generalize (after (exec c) p0) as p1.
    induction later as [|c' l IH]; intros p1 H1.
    + unfold result, native_is_window_open, bind, get_window, ret. cbn.
      now rewrite H1.
    + cbn [forallb] in Hlater. apply andb_prop in Hlater.
      destruct Hlater as [Hc' Hl]. apply negb_true_iff in Hc'.
      cbn [run]. apply (IH Hl).
      rewrite exec_is_open, Hc'. now destruct (closes c').
Qed.

Lemma window_open_after_history_witness :
  let init : Call X11 :=
    call_init_window (pf := X11) (Linux.mkCreateAnswers 11 1 2 3)
      (mkGLStrings "2.1" "v" "r") 800 600 "PyFlare" 0 1 in
  let failed : Call X11 :=
    call_init_window (pf := X11) (Linux.mkCreateAnswers 0 0 0 0)
      (mkGLStrings "2.1" "v" "r") 800 600 "PyFlare" 0 1 in
  result native_is_window_open
         (run ([call_destroy_window] ++ init ::
               [failed; call_update (pf := X11) [Linux.ConfigureNotify 1 1]
                                    (Linux.mkTimespec 5 0)])
              Process_init) = 1 /\
  result native_is_window_open
         (run ([init] ++ call_update (pf := X11) [Linux.ClientMessage]
                                     (Linux.mkTimespec 5 0) ::
               [failed; call_present (pf := X11) tt]) Process_init) = 0.
Proof.
  cbv zeta. split.
  - apply (proj1 (proj2 (window_open_after_history X11
      [call_destroy_window]
      [call_init_window (pf := X11) (Linux.mkCreateAnswers 0 0 0 0)
         (mkGLStrings "2.1" "v" "r") 800 600 "PyFlare" 0 1;
       call_update (pf := X11) [Linux.ConfigureNotify 1 1]
                   (Linux.mkTimespec 5 0)]
      (call_init_window (pf := X11) (Linux.mkCreateAnswers 11 1 2 3)
         (mkGLStrings "2.1" "v" "r") 800 600 "PyFlare" 0 1)
      Process_init))); reflexivity.
  - apply (proj2 (proj2 (window_open_after_history X11
      [call_init_window (pf := X11) (Linux.mkCreateAnswers 11 1 2 3)
         (mkGLStrings "2.1" "v" "r") 800 600 "PyFlare" 0 1]
      [call_init_window (pf := X11) (Linux.mkCreateAnswers 0 0 0 0)
         (mkGLStrings "2.1" "v" "r") 800 600 "PyFlare" 0 1;
       call_present (pf := X11) tt]
      (call_update (pf := X11) [Linux.ClientMessage] (Linux.mkTimespec 5 0))
      Process_init))); reflexivity.
Defined.

(** ** What [native_init_window] sends out *)

Lemma Windows_create_calls (os : Windows.CreateAnswers) (config : WindowConfig)
  (p : Process) :
  calls (after (Windows.native_create_window os config) p) =
  calls p ++
  if truthy (Windows.RegisterClassEx_ret os) then
    Ext "AdjustWindowRect"
        [AInt 0; AInt 0; AInt (cfg_width config); AInt (cfg_height config);
         AStr (Windows.window_style config)] ::
    if truthy (Windows.CreateWindowEx_ret os) then
      [Ext "SetPixelFormat" [AInt (Windows.GetDC_ret os);
                             AInt (Windows.ChoosePixelFormat_ret os)];
       Ext "wglMakeCurrent" [AInt (Windows.GetDC_ret os);
                             AInt (Windows.wglCreateContext_ret os)];
       Ext "ShowWindow" [AInt (Windows.CreateWindowEx_ret os); AStr "SW_SHOW"];
       Ext "UpdateWindow" [AInt (Windows.CreateWindowEx_ret os)]]
    else []
  else [].
Proof.
  destruct p as [w d xw gc out cs]. unfold Windows.native_create_window.
  destruct (truthy (Windows.RegisterClassEx_ret os));
    [destruct (truthy (Windows.CreateWindowEx_ret os))|]; run_m;
    rewrite <- ?app_assoc; cbn [app]; rewrite ?app_nil_r; reflexivity.
Qed.

Lemma Linux_create_calls (os : Linux.CreateAnswers) (config : WindowConfig)
  (p : Process) :
  calls (after (Linux.native_create_window os config) p) =
  calls p ++
  if truthy (Linux.XOpenDisplay_ret os)
     && truthy (Linux.glXChooseVisual_ret os) then
    [Ext "XMapWindow" [AInt (Linux.XOpenDisplay_ret os);
                       AInt (Linux.XCreateWindow_ret os)];
     Ext "XStoreName" [AInt (Linux.XOpenDisplay_ret os);
                       AInt (Linux.XCreateWindow_ret os);
                       AStr (cfg_title config)];
     Ext "glXMakeCurrent" [AInt (Linux.XOpenDisplay_ret os);
                           AInt (Linux.XCreateWindow_ret os);
                           AInt (Linux.glXCreateContext_ret os)];
     Ext "XFree" [AInt (Linux.glXChooseVisual_ret os)]]
  else [].
Proof.
  destruct p as [w d xw gc out cs]. unfold Linux.native_create_window. run_m.
  destruct (truthy (Linux.XOpenDisplay_ret os));
    [destruct (truthy (Linux.glXChooseVisual_ret os))|]; run_m;
    rewrite <- ?app_assoc; cbn [app]; rewrite ?app_nil_r; reflexivity.
Qed.

Lemma init_window_calls (pf : Platform) (os : CreateAnswers pf)
  (gl : GLStrings) (w h : Z) (title : string) (fullscreen vsync : Z)
  (p : Process) :
  let config :=
    mkWindowConfig w h title (truthy fullscreen) (truthy vsync) 2 1 in
  calls (after (native_init_window pf os gl w h title fullscreen vsync) p) =
  calls (after (native_create_window pf os config) p) ++
  if creation_succeeds pf os then gl_setup_calls w h else [].
Proof.
  cbv zeta.
  pose proof (init_result_creation pf os gl w h title fullscreen vsync p)
    as Hr.
  destruct (creation_succeeds pf os).
  - pose proof (init_success_create pf os gl w h title fullscreen vsync p Hr)
      as Hnz.
    apply truthy_true_iff in Hnz.
    unfold native_init_window. rewrite after_bind, Hnz.
    destruct (after (native_create_window pf os _) p) as [w0 d xw gc out cs].
    run_m. unfold gl_setup_calls. rewrite <- !app_assoc. reflexivity.
  - assert (H0 : result (native_create_window pf os
                   (mkWindowConfig w h title (truthy fullscreen)
                                   (truthy vsync) 2 1)) p = 0).
    { destruct (Z.eq_dec (result (native_create_window pf os
                   (mkWindowConfig w h title (truthy fullscreen)
                                   (truthy vsync) 2 1)) p) 0) as [E|E];
        [exact E|].
      destruct (init_window_success pf os gl w h title fullscreen vsync p E)
        as (H1 & _). congruence. }
    destruct (init_window_failure pf os gl w h title fullscreen vsync p H0)
      as (_ & E).
    cbv zeta in E. rewrite E, app_nil_r. reflexivity.
Qed.

(** X18.  [native_init_window] sets up the OpenGL state only once the
    context has been made current: on success the calls it issues end
    with the six state-setting calls, the viewport being the requested
    size, right after what window creation issued; on failure it issues
    no OpenGL call at all.  In no case does it release anything: called
    while a window is open it overwrites the handles of that window
    without destroying it. *)
Theorem native_init_window_emits :
  (forall (os : CreateAnswers Win32) (gl : GLStrings) (w h : Z)
          (title : string) (fullscreen vsync : Z) (p : Process),
      let k := emitted (native_init_window Win32 os gl w h title
                                           fullscreen vsync) p in
      let adjust :=
        Ext "AdjustWindowRect"
            [AInt 0; AInt 0; AInt w; AInt h;
             AStr (if truthy fullscreen then "WS_POPUP"
                   else "WS_OVERLAPPEDWINDOW")] in
      (Windows.RegisterClassEx_ret os = 0 -> k = []) /\
      (Windows.RegisterClassEx_ret os <> 0 ->
       Windows.CreateWindowEx_ret os = 0 -> k = [adjust]) /\
      (Windows.RegisterClassEx_ret os <> 0 ->
       Windows.CreateWindowEx_ret os <> 0 ->
       k = [adjust;
            Ext "SetPixelFormat" [AInt (Windows.GetDC_ret os);
                                  AInt (Windows.ChoosePixelFormat_ret os)];
            Ext "wglMakeCurrent" [AInt (Windows.GetDC_ret os);
                                  AInt (Windows.wglCreateContext_ret os)];
            Ext "ShowWindow" [AInt (Windows.CreateWindowEx_ret os);
                              AStr "SW_SHOW"];
            Ext "UpdateWindow" [AInt (Windows.CreateWindowEx_ret os)]]
           ++ gl_setup_calls w h))
  /\
  (forall (os : CreateAnswers X11) (gl : GLStrings) (w h : Z)
          (title : string) (fullscreen vsync : Z) (p : Process),
      let k := emitted (native_init_window X11 os gl w h title
                                           fullscreen vsync) p in
      (creation_succeeds X11 os = false -> k = []) /\
      (creation_succeeds X11 os = true ->
       k = [Ext "XMapWindow" [AInt (Linux.XOpenDisplay_ret os);
                              AInt (Linux.XCreateWindow_ret os)];
            Ext "XStoreName" [AInt (Linux.XOpenDisplay_ret os);
                              AInt (Linux.XCreateWindow_ret os); AStr title];
            Ext "glXMakeCurrent" [AInt (Linux.XOpenDisplay_ret os);
                                  AInt (Linux.XCreateWindow_ret os);
                                  AInt (Linux.glXCreateContext_ret os)];
            Ext "XFree" [AInt (Linux.glXChooseVisual_ret os)]]
           ++ gl_setup_calls w h))
  /\
  (forall (pf : Platform) (os : CreateAnswers pf) (gl : GLStrings) (w h : Z)
          (title : string) (fullscreen vsync : Z) (p : Process),
      forallb (fun c => negb (is_release_call c))
              (emitted (native_init_window pf os gl w h title
                                           fullscreen vsync) p) = true).
Proof.
  assert (HW : forall (os : CreateAnswers Win32) gl w h title fullscreen vsync p,
    emitted (native_init_window Win32 os gl w h title fullscreen vsync) p =
    (if truthy (Windows.RegisterClassEx_ret os) then
       Ext "AdjustWindowRect"
           [AInt 0; AInt 0; AInt w; AInt h;
            AStr (if truthy fullscreen then "WS_POPUP"
                  else "WS_OVERLAPPEDWINDOW")] ::
       if truthy (Windows.CreateWindowEx_ret os) then
         [Ext "SetPixelFormat" [AInt (Windows.GetDC_ret os);
                                AInt (Windows.ChoosePixelFormat_ret os)];
          Ext "wglMakeCurrent" [AInt (Windows.GetDC_ret os);
                                AInt (Windows.wglCreateContext_ret os)];
          Ext "ShowWindow" [AInt (Windows.CreateWindowEx_ret os);
                            AStr "SW_SHOW"];
          Ext "UpdateWindow" [AInt (Windows.CreateWindowEx_ret os)]]
       else []
     else []) ++
    if creation_succeeds Win32 os then gl_setup_calls w h else []).
  { intros os gl w h title fullscreen vsync p. apply emitted_app.
    rewrite init_window_calls. cbn [native_create_window].
    rewrite Windows_create_calls, <- app_assoc. reflexivity. }
  assert (HX : forall (os : CreateAnswers X11) gl w h title fullscreen vsync p,
    emitted (native_init_window X11 os gl w h title fullscreen vsync) p =
    (if creation_succeeds X11 os then
       [Ext "XMapWindow" [AInt (Linux.XOpenDisplay_ret os);
                          AInt (Linux.XCreateWindow_ret os)];
        Ext "XStoreName" [AInt (Linux.XOpenDisplay_ret os);
                          AInt (Linux.XCreateWindow_ret os); AStr title];
        Ext "glXMakeCurrent" [AInt (Linux.XOpenDisplay_ret os);
                              AInt (Linux.XCreateWindow_ret os);
                              AInt (Linux.glXCreateContext_ret os)];
        Ext "XFree" [AInt (Linux.glXChooseVisual_ret os)]]
     else []) ++
    if creation_succeeds X11 os then gl_setup_calls w h else []).
  { intros os gl w h title fullscreen vsync p. apply emitted_app.
    rewrite init_window_calls. cbn [native_create_window].
    rewrite Linux_create_calls, <- app_assoc. reflexivity. }
  split; [|split].
  - intros os gl w h title fullscreen vsync p. cbv zeta. rewrite HW.
    cbn [creation_succeeds].
    repeat split.
    + intros H. now rewrite (proj2 (truthy_false_iff _) H).
    + intros H1 H2. rewrite (proj2 (truthy_true_iff _) H1),
        (proj2 (truthy_false_iff _) H2). reflexivity.
    + intros H1 H2. rewrite (proj2 (truthy_true_iff _) H1),
        (proj2 (truthy_true_iff _) H2). reflexivity.
  - intros os gl w h title fullscreen vsync p. cbv zeta. rewrite HX.
    split; intros ->; reflexivity.
  - intros pf os gl w h title fullscreen vsync p. destruct pf.
    + rewrite HW. cbn [creation_succeeds].
      destruct (truthy (Windows.RegisterClassEx_ret os)),
        (truthy (Windows.CreateWindowEx_ret os)); reflexivity.
    + rewrite HX. destruct (creation_succeeds X11 os); reflexivity.
Qed.

Lemma native_init_window_emits_witness :
  let first := native_init_window X11 (Linux.mkCreateAnswers 11 1 2 3)
                 (mkGLStrings "2.1" "v" "r") 800 600 "PyFlare" 0 1 in
  let second := native_init_window X11 (Linux.mkCreateAnswers 12 1 4 5)
                  (mkGLStrings "2.1" "v" "r") 640 480 "Again" 0 1 in
  let p := after first Process_init in
  is_open (g_window p) = true /\
  native_handle (g_window (after second p)) = 4 /\
  emitted second p =
  [Ext "XMapWindow" [AInt 12; AInt 4];
   Ext "XStoreName" [AInt 12; AInt 4; AStr "Again"];
   Ext "glXMakeCurrent" [AInt 12; AInt 4; AInt 5];
   Ext "XFree" [AInt 1]] ++ gl_setup_calls 640 480.
Proof.
  cbv zeta. split; [reflexivity|]. split; [reflexivity|].
  apply (proj2 (proj1 (proj2 native_init_window_emits)
    (Linux.mkCreateAnswers 12 1 4 5) (mkGLStrings "2.1" "v" "r")
    640 480 "Again" 0 1
    (after (native_init_window X11 (Linux.mkCreateAnswers 11 1 2 3)
              (mkGLStrings "2.1" "v" "r") 800 600 "PyFlare" 0 1)
           Process_init))).
  reflexivity.
Defined.

Lemma native_get_memory_usage_range_witness :
  result (native_get_memory_usage Win32 (mkMemoryInfo 1 3221225472))
         Process_init = 3221225472 - 2 ^ 32 /\
  result (native_get_memory_usage Win32 (mkMemoryInfo 1 1048576))
         Process_init = 1048576.
Proof.
  split.
  - apply (proj2 (proj2 (proj2 native_get_memory_usage_range
             (mkMemoryInfo 1 3221225472) Process_init ltac:(discriminate)))).
    cbn. lia.
  - apply (proj1 (proj2 (proj2 native_get_memory_usage_range
             (mkMemoryInfo 1 1048576) Process_init ltac:(discriminate)))).
    cbn. lia.
Defined.
